(** * Max-value entropy search candidate generation (Ax, [botorch_mes.py])
      and the runtime type-check helpers of [typeutils.py].

    The development is a shallow embedding.  Python values that travel
    through free-form option dictionaries are a small universe [value];
    tensors are lists of IEEE binary64 numbers (Rocq's primitive floats);
    exceptions are the [Err] side of a result type; the surrogate model
    lives in a store of model objects, and the calls into collaborators
    (candidate-set sampler, model subsetting, optimizer) are recorded in a
    call log carried by the world state. *)

From Stdlib Require Import ZArith String List PrimFloat.
From stdpp Require Import gmap strings list fin_maps sorting.

Local Open Scope Z_scope.
Local Open Scope string_scope.

(** ** Python values *)

(** Keys of the dictionaries met in this code: option names (strings) and
    dimension indices (integers). *)
Inductive key : Type :=
  | KStr (s : string)
  | KInt (z : Z).

#[global] Instance key_eq_dec : EqDecision key.
Proof. solve_decision. Defined.

Definition key_to_sum (k : key) : string + Z :=
  match k with KStr s => inl s | KInt z => inr z end.

Definition key_of_sum (x : string + Z) : key :=
  match x with inl s => KStr s | inr z => KInt z end.

#[global] Instance key_countable : Countable key.
Proof. apply (inj_countable' key_to_sum key_of_sum). by intros []. Defined.

#[warnings="-register-all"] Inductive value : Type :=
  | VNone
  | VBool (b : bool)
  | VInt (z : Z)
  | VFloat (f : float)
  | VStr (s : string)
  | VDict (d : gmap key value).

(** The runtime classes of those values, with [bool] a subclass of [int]
    and everything a subclass of [object]. *)
Inductive pyclass : Type :=
  | CObject | CNoneType | CBool | CInt | CFloat | CStr | CDict.

#[global] Instance pyclass_eq_dec : EqDecision pyclass.
Proof. solve_decision. Defined.

Definition class_of (v : value) : pyclass :=
  match v with
  | VNone => CNoneType
  | VBool _ => CBool
  | VInt _ => CInt
  | VFloat _ => CFloat
  | VStr _ => CStr
  | VDict _ => CDict
  end.

Definition issubclass (c d : pyclass) : bool :=
  match d, c with
  | CObject, _ => true
  | CInt, CBool => true
  | _, _ => bool_decide (c = d)
  end.

Definition isinstance (val : value) (typ : pyclass) : bool :=
  issubclass (class_of val) typ.

Definition is_none (v : value) : bool :=
  match v with VNone => true | _ => false end.

(** Truth value of an object, as tested by [if] and [or]. *)
Definition truthy (v : value) : bool :=
  match v with
  | VNone => false
  | VBool b => b
  | VInt z => negb (Z.eqb z 0)
  | VFloat f => negb (PrimFloat.eqb f 0)
  | VStr s => negb (bool_decide (s = ""))
  | VDict d => negb (bool_decide (d = ∅))
  end.

(** ** Exceptions and results *)

Inductive message : Type :=
  | Text (s : string)
  | NotOfType (typ : pyclass) (val : value)
  | IndexMismatch (target_keys weight_keys : gset key).

Inductive exn : Type :=
  | ValueError (m : message)
  | UnsupportedError (m : message)
  | RuntimeError (m : message)
  | TypeError
  | AttributeError
  | IndexError.

Inductive result (A : Type) : Type :=
  | Ok (a : A)
  | Err (e : exn).

Arguments Ok {A} a.
Arguments Err {A} e.

Definition is_ok {A} (r : result A) : bool :=
  match r with Ok _ => true | Err _ => false end.

(** ** [ax/utils/common/typeutils.py] *)

Module TypeUtils.

(** [message or "Argument to `not_none` was None."] *)
Definition not_none_message (message : option string) : string :=
  match message with
  | Some m => if bool_decide (m = "") then "Argument to `not_none` was None." else m
  | None => "Argument to `not_none` was None."
  end.

Definition not_none (val : value) (message : option string) : result value :=
  if is_none val then Err (ValueError (Text (not_none_message message)))
  else Ok val.

Definition checked_cast (typ : pyclass) (val : value) (exception : option exn)
  : result value :=
  if negb (isinstance val typ) then
    Err (match exception with
         | Some e => e
         | None => ValueError (NotOfType typ val)
         end)
  else Ok val.

Definition checked_cast_optional (typ : pyclass) (val : value) : result value :=
  if is_none val then Ok val else checked_cast typ val None.

(** [not_none] at an arbitrary type [T]: [Optional[T]] is [option T]. *)
Definition not_none_of {T} (val : option T) (message : option string) : result T :=
  match val with
  | None => Err (ValueError (Text (not_none_message message)))
  | Some x => Ok x
  end.

(** The loop of [checked_cast_list]: [new_l] is the list built so far. *)
Fixpoint checked_cast_list_from (typ : pyclass) (old_l new_l : list value)
  : result (list value) :=
  match old_l with
  | [] => Ok new_l
  | val :: rest =>
      match checked_cast typ val None with
      | Ok val => checked_cast_list_from typ rest (new_l ++ [val])
      | Err e => Err e
      end
  end.

Definition checked_cast_list (typ : pyclass) (old_l : list value) : result (list value) :=
  checked_cast_list_from typ old_l [].

(** Dictionaries whose iteration order matters are lists of items in
    insertion order; [d[k] = v] replaces the value of a key that is present
    and appends the item otherwise. *)
Fixpoint setitem (d : list (key * value)) (k : key) (v : value) : list (key * value) :=
  match d with
  | [] => [(k, v)]
  | (k', v') :: rest =>
      if decide (k' = k) then (k', v) :: rest else (k', v') :: setitem rest k v
  end.

Definition value_of_key (k : key) : value :=
  match k with KStr s => VStr s | KInt z => VInt z end.

(** The loop of [checked_cast_dict] over [d.items()]: the value is checked
    before the key. *)
Fixpoint checked_cast_dict_from (key_typ value_typ : pyclass)
    (items new_dict : list (key * value)) : result (list (key * value)) :=
  match items with
  | [] => Ok new_dict
  | (k, val) :: rest =>
      match checked_cast value_typ val None with
      | Err e => Err e
      | Ok val =>
          match checked_cast key_typ (value_of_key k) None with
          | Err e => Err e
          | Ok _ => checked_cast_dict_from key_typ value_typ rest (setitem new_dict k val)
          end
      end
  end.

Definition checked_cast_dict (key_typ value_typ : pyclass) (d : list (key * value))
  : result (list (key * value)) :=
  checked_cast_dict_from key_typ value_typ d [].

(** [isinstance(val, typ)] for a tuple of classes. *)
Definition isinstance_any (val : value) (typ : list pyclass) : bool :=
  existsb (isinstance val) typ.

(** The message of [checked_cast_to_tuple] formats the builtin [type], not
    the argument [typ]; [repr] is the builtin that renders the value. *)
Definition checked_cast_to_tuple (repr : value → string) (typ : list pyclass)
    (val : value) : result value :=
  if negb (isinstance_any val typ) then
    Err (ValueError
           (Text ("Value was not of type <class 'type'>:" ++ String (Ascii.ascii_of_nat 10) (repr val))))
  else Ok val.

End TypeUtils.

(** ** [ax/models/torch/botorch_mes.py]: data *)

(** Dictionary access: [d.get(k, dflt)] on a dictionary, and the same
    method call on an arbitrary object (only dictionaries have it). *)
Definition dict_get (d : gmap key value) (k : string) (dflt : value) : value :=
  match d !! KStr k with Some v => v | None => dflt end.

Definition as_dict (o : value) : result (gmap key value) :=
  match o with VDict d => Ok d | _ => Err AttributeError end.

#[global] Instance KInt_inj : Inj (=) (=) KInt.
Proof. intros x y H. by injection H. Qed.

(** [set(o)]: the keys of a dictionary, the characters of a string; other
    values of the universe are not iterable. *)
Definition py_set (o : value) : result (gset key) :=
  match o with
  | VDict d => Ok (dom d)
  | VStr s => Ok (list_to_set (map (λ c, KStr (String c EmptyString)) (list_ascii_of_string s)))
  | _ => Err TypeError
  end.

Record SearchSpaceDigest : Type := {
  bounds : list (float * float);
  target_values : gmap Z float;
  fidelity_features : list Z
}.

Record TorchOptConfig : Type := {
  objective_weights : list float;
  outcome_constraints : option (list (list float) * list (list float));
  linear_constraints : option (list (list float) * list (list float));
  fixed_features : option (gmap Z float);
  pending_observations : option (list (list (list float)));
  model_gen_options : option (gmap key value);
  rounding_func : option (list float → list float)
}.

Record TorchGenResults : Type := {
  points : list (list float);
  weights : list float
}.

(** The acquisition functions are values of the BoTorch library; they are
    represented by the constructor that was called and the arguments it
    received.  The two closures [project] and [expand] are represented by
    what they capture. *)
Record mes_args : Type := {
  mes_model : nat;
  mes_candidate_set : list (list float);
  mes_num_fantasies : value;
  mes_num_mv_samples : value;
  mes_num_y_samples : value;
  mes_X_pending : option (list (list float));
  mes_maximize : bool
}.

Record AffineFidelityCostModel : Type := {
  fidelity_weights : value;
  fixed_cost : float
}.

Record InverseCostWeightedUtility : Type := {
  cost_model : AffineFidelityCostModel
}.

Record project_closure : Type := {
  project_target_fidelities : gmap Z float
}.

Record expand_closure : Type := {
  fidelity_dims : list Z;
  num_trace_obs : value
}.

Inductive AcquisitionFunction : Type :=
  | qMaxValueEntropy (a : mes_args)
  | qMultiFidelityMaxValueEntropy (a : mes_args)
      (cost_aware_utility : InverseCostWeightedUtility)
      (project : project_closure) (expand : expand_closure).

Definition acqf_args (f : AcquisitionFunction) : mes_args :=
  match f with
  | qMaxValueEntropy a => a
  | qMultiFidelityMaxValueEntropy a _ _ _ => a
  end.

Definition is_cost_aware (f : AcquisitionFunction) : bool :=
  match f with
  | qMaxValueEntropy _ => false
  | qMultiFidelityMaxValueEntropy _ _ _ _ => true
  end.

(** Default weights [{f: 1.0 for f in target_fidelities}]. *)
Definition default_fidelity_weights (target_fidelities : gmap Z float) : gmap key value :=
  kmap KInt ((λ _ : float, VFloat 1%float) <$> target_fidelities).

Definition target_keys (target_fidelities : gmap Z float) : gset key :=
  set_map (D := gset key) KInt (dom target_fidelities).

Definition sorted_keys (target_fidelities : gmap Z float) : list Z :=
  merge_sort Z.le (map fst (map_to_list target_fidelities)).

Definition _instantiate_MES
    (model : nat) (candidate_set : list (list float))
    (num_fantasies num_mv_samples num_y_samples : value)
    (X_pending : option (list (list float))) (maximize : bool)
    (num_trace_observations : value)
    (target_fidelities : option (gmap Z float)) (fidelity_weights : value)
    (cost_intercept : float) : result AcquisitionFunction :=
  let a := {| mes_model := model; mes_candidate_set := candidate_set;
              mes_num_fantasies := num_fantasies;
              mes_num_mv_samples := num_mv_samples;
              mes_num_y_samples := num_y_samples;
              mes_X_pending := X_pending; mes_maximize := maximize |} in
  match target_fidelities with
  | Some tf =>
      if bool_decide (tf = ∅) then Ok (qMaxValueEntropy a)
      else
        let fidelity_weights :=
          if is_none fidelity_weights then VDict (default_fidelity_weights tf)
          else fidelity_weights in
        match py_set fidelity_weights with
        | Err e => Err e
        | Ok weight_keys =>
            if negb (bool_decide (target_keys tf = weight_keys)) then
              Err (RuntimeError (IndexMismatch (target_keys tf) weight_keys))
            else
              Ok (qMultiFidelityMaxValueEntropy a
                    {| cost_model := {| fidelity_weights := fidelity_weights;
                                        fixed_cost := cost_intercept |} |}
                    {| project_target_fidelities := tf |}
                    {| fidelity_dims := sorted_keys tf;
                       num_trace_obs := num_trace_observations |})
        end
  | None => Ok (qMaxValueEntropy a)
  end.

(** ** The world: model store, random source and call log *)

(** A surrogate model object: the fitted model it is a view of, and the
    outcomes of that model it exposes. *)
Record model_obj : Type := {
  model_base : nat;
  model_outcomes : list nat
}.

Record optimize_args : Type := {
  opt_acq_function : AcquisitionFunction;
  opt_bounds : list float * list float;
  opt_q : Z;
  opt_fixed_features : option (gmap Z float);
  opt_post_processing_func : option (list float → list float);
  opt_num_restarts : value;
  opt_raw_samples : value;
  opt_options : gmap key value;
  opt_sequential : bool
}.

Inductive call : Type :=
  | CallSubsetModel (model : nat)
  | CallSampler (size : value) (dim : nat)
  | CallOptimizer (args : optimize_args).

Record world : Type := {
  heap : gmap nat model_obj;
  rng : nat;
  calls : list call
}.

(** Computations that read and change the world and may raise; what was
    done before an exception stays done. *)
Definition M (A : Type) : Type := world → result A * world.

Definition ret {A} (a : A) : M A := λ w, (Ok a, w).

Definition raise {A} (e : exn) : M A := λ w, (Err e, w).

Definition bind {A B} (m : M A) (k : A → M B) : M B :=
  λ w, match m w with
       | (Ok a, w') => k a w'
       | (Err e, w') => (Err e, w')
       end.

Definition lift {A} (r : result A) : M A := λ w, (r, w).

Notation "'let*' x ':=' m 'in' k" := (bind m (λ x, k))
  (at level 10, x pattern, m at level 100, k at level 200).

Definition record_call (c : call) : M unit :=
  λ w, (Ok tt, {| heap := heap w; rng := rng w; calls := c :: calls w |}).

Definition next_seed : M nat :=
  λ w, (Ok (rng w), {| heap := heap w; rng := S (rng w); calls := calls w |}).

(** ** Model subsetting ([ax/models/torch/utils.py], not in the sources at hand) *)

Record SubsetModelData : Type := {
  sm_model : nat;
  sm_objective_weights : list float;
  sm_indices : list nat
}.

Definition nonzero (x : float) : bool := negb (PrimFloat.eqb x 0).

Definition outcome_required (ow : list float)
    (oc : option (list (list float) * list (list float))) (j : nat) : bool :=
  nonzero (nth j ow 0%float)
  || match oc with
     | Some (A, _) => existsb (λ row, nonzero (nth j row 0%float)) A
     | None => false
     end.

Definition required_outcomes (ow : list float)
    (oc : option (list (list float) * list (list float))) : list nat :=
  List.filter (outcome_required ow oc) (seq 0 (length ow)).

Definition pick {A} (l : list A) (idcs : list nat) : list A :=
  omap (λ j, l !! j) idcs.

(** Modelled from the spec: [subset_model] of [ax/models/torch/utils.py] is
    imported by [botorch_mes.py] but its source is missing.  Following the
    ModelSubsetter contract: the result is a model restricted to the outcomes
    required to evaluate the objective (those with a non-zero weight) and the
    constraints (those with a non-zero coefficient), with the correspondingly
    reduced objective weights; the only effect is the construction of a new
    model view, stored at an unused address. *)
Definition subset_model (h : gmap nat model_obj) (model : nat) (ow : list float)
    (oc : option (list (list float) * list (list float)))
  : result (SubsetModelData * gmap nat model_obj) :=
  match h !! model with
  | None => Err AttributeError
  | Some m =>
      let idcs := required_outcomes ow oc in
      let view := {| model_base := model_base m;
                     model_outcomes := pick (model_outcomes m) idcs |} in
      let l := fresh (dom h) in
      Ok ({| sm_model := l; sm_objective_weights := pick ow idcs;
             sm_indices := idcs |}, <[l := view]> h)
  end.

Definition call_subset_model (model : nat) (ow : list float)
    (oc : option (list (list float) * list (list float))) : M SubsetModelData :=
  let* _ := record_call (CallSubsetModel model) in
  λ w, match subset_model (heap w) model ow oc with
       | Ok (d, h') => (Ok d, {| heap := h'; rng := rng w; calls := calls w |})
       | Err e => (Err e, w)
       end.

(** ** Collaborators outside this module *)

(** The helpers of the Ax torch layer and the BoTorch and Torch routines
    that [gen] calls.  The random ones take the seed drawn from the world. *)
Class collaborators : Type := {
  _get_X_pending_and_observed :
    list (list (list float)) → list float → list (float * float) →
    option (list (list (list float))) →
    option (list (list float) * list (list float)) →
    option (list (list float) * list (list float)) →
    option (gmap Z float) →
    result (option (list (list float)) * option (list (list float)));
  get_rounding_func :
    option (list float → list float) → option (list float → list float);
  torch_rand : nat → value → nat → result (list (list float));
  optimize_acqf : nat → optimize_args → result (list (list float) * list float)
}.

(** ** [MaxValueEntropySearch.gen] *)

Record MaxValueEntropySearch : Type := {
  Xs : list (list (list float));
  model : nat;
  cost_intercept : float
}.

(** What the construction phase of [gen] leaves for the optimization phase. *)
Record gen_locals : Type := {
  acq_function : AcquisitionFunction;
  bounds_ : list float * list float;
  optimizer_options : gmap key value;
  num_restarts : value;
  raw_samples : value
}.

(** [torch_opt_config.model_gen_options or {}] *)
Definition gen_options (cfg : TorchOptConfig) : gmap key value :=
  match model_gen_options cfg with Some d => d | None => ∅ end.

Definition isSome {A} (o : option A) : bool :=
  match o with Some _ => true | None => false end.

(** Lines 75-86: the two guards. *)
Definition gen_validate (cfg : TorchOptConfig) : result unit :=
  if isSome (linear_constraints cfg) || isSome (outcome_constraints cfg) then
    Err (UnsupportedError
           (Text "Constraints are not yet supported by max-value entropy search!"))
  else if Nat.ltb 1 (length (objective_weights cfg)) then
    Err (UnsupportedError
           (Text "Models with multiple outcomes are not yet supported by MES!"))
  else Ok tt.

(** Lines 102-114: the model and the weights used from here on. *)
Definition gen_subset (self : MaxValueEntropySearch) (cfg : TorchOptConfig)
  : M (nat * list float) :=
  if truthy (dict_get (gen_options cfg) "subset_model" (VBool true)) then
    let* r := call_subset_model (model self) (objective_weights cfg)
                (outcome_constraints cfg) in
    ret (sm_model r, sm_objective_weights r)
  else ret (model self, objective_weights cfg).

(** [torch.tensor(bounds).transpose(0, 1)]: row 0 holds the lower bounds,
    row 1 the upper bounds; a tensor without rows has no dimension 1. *)
Definition transpose_bounds (b : list (float * float)) : result (list float * list float) :=
  match b with
  | [] => Err IndexError
  | _ => Ok (map fst b, map snd b)
  end.

(** [bounds_[0] + (bounds_[1] - bounds_[0]) * candidate_set] *)
Definition rescale (b : list float * list float) (u : list (list float))
  : list (list float) :=
  map (λ row, zip_with (λ lh x, PrimFloat.add (fst lh)
                                   (PrimFloat.mul (PrimFloat.sub (snd lh) (fst lh)) x))
                 (zip (fst b) (snd b)) row) u.

Definition sample_candidate_set `{collaborators} (candidate_size : value) (d : nat)
  : M (list (list float)) :=
  let* _ := record_call (CallSampler candidate_size d) in
  let* seed := next_seed in
  lift (torch_rand seed candidate_size d).

(** Lines 133-137. *)
Definition gen_target_fidelities (ssd : SearchSpaceDigest) : gmap Z float :=
  filter (λ kv, kv.1 ∈ fidelity_features ssd) (target_values ssd).

(** Line 146: [True if objective_weights[0] == 1 else False]. *)
Definition gen_maximize (objective_weights : list float) : result bool :=
  match objective_weights with
  | [] => Err IndexError
  | w :: _ => Ok (if PrimFloat.eqb w 1 then true else false)
  end.

(** Lines 88-150: from the options to the acquisition function. *)
Definition gen_build `{collaborators} (self : MaxValueEntropySearch)
    (ssd : SearchSpaceDigest) (cfg : TorchOptConfig) : M gen_locals :=
  let options := gen_options cfg in
  let acf_options := dict_get options "acquisition_function_kwargs" (VDict ∅) in
  let optimizer_options := dict_get options "optimizer_kwargs" (VDict ∅) in
  let* Xpo := lift (_get_X_pending_and_observed (Xs self) (objective_weights cfg)
                     (bounds ssd) (pending_observations cfg)
                     (outcome_constraints cfg) (linear_constraints cfg)
                     (fixed_features cfg)) in
  let X_pending := fst Xpo in
  let* mw := gen_subset self cfg in
  let model := fst mw in
  let objective_weights := snd mw in
  let* acf := lift (as_dict acf_options) in
  let num_fantasies := dict_get acf "num_fantasies" (VInt 16) in
  let num_mv_samples := dict_get acf "num_mv_samples" (VInt 10) in
  let num_y_samples := dict_get acf "num_y_samples" (VInt 128) in
  let candidate_size := dict_get acf "candidate_size" (VInt 1000) in
  let* oo := lift (as_dict optimizer_options) in
  let num_restarts := dict_get oo "num_restarts" (VInt 40) in
  let raw_samples := dict_get oo "raw_samples" (VInt 1024) in
  let* bounds_ := lift (transpose_bounds (bounds ssd)) in
  let* candidate_set := sample_candidate_set candidate_size (length (fst bounds_)) in
  let candidate_set := rescale bounds_ candidate_set in
  let target_fidelities := gen_target_fidelities ssd in
  let* maximize := lift (gen_maximize objective_weights) in
  let* acq := lift (_instantiate_MES model candidate_set num_fantasies
                      num_mv_samples num_y_samples X_pending maximize
                      (dict_get options "num_trace_observations" (VInt 0))
                      (Some target_fidelities)
                      (dict_get options "fidelity_weights" VNone)
                      (cost_intercept self)) in
  ret {| acq_function := acq; bounds_ := bounds_; optimizer_options := oo;
         num_restarts := num_restarts; raw_samples := raw_samples |}.

(** [d.update(o)] *)
Definition dict_update (d : gmap key value) (o : value) : result (gmap key value) :=
  match o with
  | VDict u => Ok (u ∪ d)
  | VStr s =>
      if bool_decide (s = "") then Ok d
      else Err (ValueError (Text "dictionary update sequence element has length 1; 2 is required"))
  | _ => Err TypeError
  end.

Definition default_opt_options : gmap key value :=
  <[KStr "batch_limit" := VInt 8]>
    (<[KStr "maxiter" := VInt 200]>
       (<[KStr "method" := VStr "L-BFGS-B"]>
          (<[KStr "nonnegative" := VBool false]> ∅))).

(** [torch.ones(n)] *)
Definition torch_ones (n : Z) : result (list float) :=
  if Z.ltb n 0 then
    Err (RuntimeError (Text "Trying to create tensor with negative dimension"))
  else Ok (replicate (Z.to_nat n) 1%float).

Definition call_optimize_acqf `{collaborators} (args : optimize_args)
  : M (list (list float) * list float) :=
  let* _ := record_call (CallOptimizer args) in
  let* seed := next_seed in
  lift (optimize_acqf seed args).

(** Lines 152-176: optimization and packaging. *)
Definition gen_optimize `{collaborators} (n : Z) (cfg : TorchOptConfig)
    (b : gen_locals) : M TorchGenResults :=
  let botorch_rounding_func := get_rounding_func (rounding_func cfg) in
  let* opt_options :=
    lift (dict_update default_opt_options
            (dict_get (optimizer_options b) "options" (VDict ∅))) in
  let* cv := call_optimize_acqf
       {| opt_acq_function := acq_function b;
          opt_bounds := bounds_ b;
          opt_q := n;
          opt_fixed_features := fixed_features cfg;
          opt_post_processing_func := botorch_rounding_func;
          opt_num_restarts := num_restarts b;
          opt_raw_samples := raw_samples b;
          opt_options := opt_options;
          opt_sequential := true |} in
  let* ones := lift (torch_ones n) in
  ret {| points := fst cv; weights := ones |}.

Definition gen `{collaborators} (self : MaxValueEntropySearch) (n : Z)
    (ssd : SearchSpaceDigest) (cfg : TorchOptConfig) : M TorchGenResults :=
  let* _ := lift (gen_validate cfg) in
  let* b := gen_build self ssd cfg in
  gen_optimize n cfg b.

(** ** Contracts of collaborators and concrete instances *)

(** A point lies within per-dimension bounds. *)
Definition in_bounds (b : list (float * float)) (x : list float) : Prop :=
  Forall2 (λ lh xi, PrimFloat.leb (fst lh) xi = true ∧ PrimFloat.leb xi (snd lh) = true) b x.

(** Contract of the acquisition optimizer: when it returns, it returns [q]
    points, each within the bounds it was given. *)
Definition optimizer_respects_bounds `{collaborators} : Prop :=
  ∀ seed args X v,
    optimize_acqf seed args = Ok (X, v) →
    length X = Z.to_nat (opt_q args)
    ∧ Forall (in_bounds (zip (fst (opt_bounds args)) (snd (opt_bounds args)))) X.

(** The calls a run of a computation added to the log. *)
Definition new_calls (w w' : world) : list call :=
  take (length (calls w') - length (calls w))%nat (calls w').

Definition is_subset_call (c : call) : bool :=
  match c with CallSubsetModel _ => true | _ => false end.

Definition is_sampler_call (c : call) : bool :=
  match c with CallSampler _ _ => true | _ => false end.

(** A small deterministic stand-in for the collaborators: no pending
    points, the identity as rounding function, a sampler that returns the
    midpoint of the unit cube, and an optimizer that returns the lower
    corner of a well-formed box. *)
Definition demo_rand (seed : nat) (size : value) (d : nat) : result (list (list float)) :=
  match size with
  | VInt z => if Z.ltb z 0 then Err (RuntimeError (Text "negative dimension"))
              else Ok (replicate (Z.to_nat z) (replicate d 0.5%float))
  | _ => Err TypeError
  end.

Definition box_ok (lh : float * float) : bool :=
  PrimFloat.leb (fst lh) (fst lh) && PrimFloat.leb (fst lh) (snd lh).

Definition demo_optimize (seed : nat) (args : optimize_args)
  : result (list (list float) * list float) :=
  let b := zip (fst (opt_bounds args)) (snd (opt_bounds args)) in
  if Z.ltb (opt_q args) 0 then Err (ValueError (Text "q must be non-negative"))
  else if forallb box_ok b then
    Ok (replicate (Z.to_nat (opt_q args)) (map fst b), [])
  else Err (ValueError (Text "empty box")).

Definition demo : collaborators := {|
  _get_X_pending_and_observed := λ _ _ _ _ _ _ _, Ok (None, None);
  get_rounding_func := λ f, f;
  torch_rand := demo_rand;
  optimize_acqf := demo_optimize
|}.

Definition demo_self : MaxValueEntropySearch :=
  {| Xs := []; model := 0%nat; cost_intercept := 1%float |}.

Definition demo_world : world :=
  {| heap := {[ 0%nat := {| model_base := 0; model_outcomes := [0%nat] |} ]};
     rng := 0; calls := [] |}.

Definition unit_cube : list (float * float) :=
  [(0%float, 1%float); (0%float, 1%float); (0%float, 1%float)].

Definition demo_ssd : SearchSpaceDigest :=
  {| bounds := unit_cube; target_values := ∅; fidelity_features := [] |}.

Definition demo_ssd_mf : SearchSpaceDigest :=
  {| bounds := unit_cube; target_values := {[ 2 := 1%float ]};
     fidelity_features := [2] |}.

Definition demo_cfg (ow : list float) (opts : option (gmap key value)) : TorchOptConfig :=
  {| objective_weights := ow; outcome_constraints := None;
     linear_constraints := None; fixed_features := None;
     pending_observations := None; model_gen_options := opts;
     rounding_func := None |}.

Definition demo_cfg_linear : TorchOptConfig :=
  {| objective_weights := [1%float]; outcome_constraints := None;
     linear_constraints := Some ([[1%float; 1%float; 0%float]], [[1%float]]);
     fixed_features := None; pending_observations := None;
     model_gen_options := None; rounding_func := None |}.

(** Options with a small candidate set. *)
Definition small_acf : gmap key value :=
  {[ KStr "candidate_size" := VInt 4 ]}.

Definition demo_opts : gmap key value :=
  {[ KStr "acquisition_function_kwargs" := VDict small_acf ]}.

(** The three keys placed inside [acquisition_function_kwargs]. *)
Definition nested_acf : gmap key value :=
  <[KStr "subset_model" := VBool false]>
    (<[KStr "num_trace_observations" := VInt 3]>
      (<[KStr "fidelity_weights" := VDict {[ KInt 2 := VFloat 0.5%float ]}]>
        small_acf)).

Definition nested_opts : gmap key value :=
  {[ KStr "acquisition_function_kwargs" := VDict nested_acf ]}.

(** The same three keys placed at the top level of the options. *)
Definition toplevel_opts : gmap key value :=
  <[KStr "subset_model" := VBool false]>
    (<[KStr "num_trace_observations" := VInt 3]>
      (<[KStr "fidelity_weights" := VDict {[ KInt 2 := VFloat 0.5%float ]}]>
        demo_opts)).

(** ** [MaxValueEntropySearch._get_best_point_acqf] *)

(** The attributes of the generator read on the best-point path.  The
    attribute [model] is defined by the base class, outside this module:
    reading it either raises or gives the (optional) model. *)
Record BestPointSelf : Type := {
  bp_model : result (option nat);
  bp_Xs : list (list (list float));
  bp_fidelity_features : list Z
}.

(** The keyword arguments handed to [get_out_of_sample_best_point_acqf]. *)
Record best_point_args : Type := {
  bpa_model : nat;
  bpa_Xs : list (list (list float));
  bpa_objective_weights : list float;
  bpa_outcome_constraints : option (list (list float) * list (list float));
  bpa_X_observed : list (list float);
  bpa_seed_inner : option Z;
  bpa_fixed_features : option (gmap Z float);
  bpa_fidelity_features : list Z;
  bpa_target_fidelities : option (gmap Z float);
  bpa_qmc : bool
}.

(** [get_out_of_sample_best_point_acqf] of the Ax torch utilities, with the
    type of what it returns. *)
Class best_point_collaborator : Type := {
  best_point_result : Type;
  get_out_of_sample_best_point_acqf : best_point_args → result best_point_result
}.

Definition _get_best_point_acqf `{best_point_collaborator} (self : BestPointSelf)
    (X_observed : option (list (list float))) (objective_weights : list float)
    (mc_samples : Z) (fixed_features : option (gmap Z float))
    (target_fidelities : option (gmap Z float))
    (outcome_constraints : option (list (list float) * list (list float)))
    (seed_inner : option Z) (qmc : bool) : result best_point_result :=
  if isSome outcome_constraints then
    Err (UnsupportedError (Text "Outcome constraints not yet supported."))
  else
    match bp_model self with
    | Err e => Err e
    | Ok self_model =>
        match TypeUtils.not_none_of self_model None with
        | Err e => Err e
        | Ok model =>
            match TypeUtils.not_none_of X_observed None with
            | Err e => Err e
            | Ok X_observed =>
                get_out_of_sample_best_point_acqf
                  {| bpa_model := model; bpa_Xs := bp_Xs self;
                     bpa_objective_weights := objective_weights;
                     bpa_outcome_constraints := outcome_constraints;
                     bpa_X_observed := X_observed;
                     bpa_seed_inner := seed_inner;
                     bpa_fixed_features := fixed_features;
                     bpa_fidelity_features := bp_fidelity_features self;
                     bpa_target_fidelities := target_fidelities;
                     bpa_qmc := qmc |}
            end
        end
    end.

(** An item of a dictionary passes both checks of [checked_cast_dict]. *)
Definition item_ok (key_typ value_typ : pyclass) (kv : key * value) : Prop :=
  isinstance (snd kv) value_typ = true
  ∧ isinstance (TypeUtils.value_of_key (fst kv)) key_typ = true.

(** Options that replace two solver settings. *)
Definition solver_opts : gmap key value :=
  <[KStr "optimizer_kwargs" :=
      VDict {[ KStr "options" :=
                 VDict (<[KStr "batch_limit" := VInt 2]>
                          {[ KStr "disp" := VBool true ]}) ]}]> demo_opts.

(** A search space that declares fidelity feature 2 but gives it no target
    value. *)
Definition demo_ssd_untargeted : SearchSpaceDigest :=
  {| bounds := unit_cube; target_values := ∅; fidelity_features := [2] |}.

(** Top-level options that disable model subsetting. *)
Definition no_subset_opts : gmap key value :=
  <[KStr "subset_model" := VBool false]> demo_opts.

(** Top-level fidelity weights keyed by dimension 3, for a search space
    whose only fidelity feature is dimension 2. *)
Definition mismatched_opts : gmap key value :=
  <[KStr "fidelity_weights" := VDict {[ KInt 3 := VFloat 0.5%float ]}]> demo_opts.

(** ** Predicates on runs *)

(** Every call a computation adds to the log satisfies [P], whether it
    returns or raises. *)
Definition adds_only (P : call → Prop) {A} (m : M A) : Prop :=
  ∀ w r w', m w = (r, w') → ∃ new : list call, calls w' = (new ++ calls w)%list ∧ Forall P new.

Definition is_optimizer_call (c : call) : bool :=
  match c with CallOptimizer _ => true | _ => false end.

(** A computation leaves every object of the model store as it found it
    (it may add objects). *)
Definition preserves_store {A} (m : M A) : Prop :=
  ∀ w r w' l o, m w = (r, w') → heap w !! l = Some o → heap w' !! l = Some o.

(** * Properties *)

(** ** Running computations *)

Lemma bind_ok {A B} (m : M A) (k : A → M B) w b w' :
  bind m k w = (Ok b, w') →
  ∃ a w1, m w = (Ok a, w1) ∧ k a w1 = (Ok b, w').
Proof.
  unfold bind. destruct (m w) as [[a|e] w1]; [eauto | discriminate].
Qed.

Lemma bind_err {A B} (m : M A) (k : A → M B) w e w' :
  m w = (Err e, w') → bind m k w = (Err e, w').
Proof. unfold bind. by intros ->. Qed.

Lemma lift_ok {A} (r : result A) w a w' :
  lift r w = (Ok a, w') → r = Ok a ∧ w' = w.
Proof. unfold lift. by intros [= -> ->]. Qed.

Lemma ret_ok {A} (x : A) w a w' : ret x w = (Ok a, w') → a = x ∧ w' = w.
Proof. unfold ret. by intros [= -> ->]. Qed.

Lemma record_call_ok c w u w' :
  record_call c w = (Ok u, w') →
  w' = {| heap := heap w; rng := rng w; calls := c :: calls w |}.
Proof. unfold record_call. by intros [= _ <-]. Qed.

Lemma next_seed_ok w s w' :
  next_seed w = (Ok s, w') →
  s = rng w ∧ w' = {| heap := heap w; rng := S (rng w); calls := calls w |}.
Proof. unfold next_seed. by intros [= <- <-]. Qed.

Ltac run_ok H :=
  repeat
    (let a := fresh "a" in
     let w := fresh "w" in
     let H1 := fresh "Hrun" in
     apply bind_ok in H as (a & w & H1 & H);
     first [ apply lift_ok in H1 as [H1 ->]
           | apply record_call_ok in H1 as ->
           | apply next_seed_ok in H1 as [-> ->]
           | idtac ]);
  try (apply ret_ok in H as [-> ->]).

(** ** Type-check helpers *)

(** C10: [not_none] and [checked_cast] return their argument unchanged when
    the check passes, and raise exactly when it fails: [ValueError] for a
    [None] argument of [not_none]; the supplied exception, or [ValueError]
    when none is supplied, for a value that is not an instance of the type
    given to [checked_cast]. *)
Theorem type_checks_identity_or_raise (typ : pyclass) (val : value)
    (message : option string) (exception : option exn) :
  (TypeUtils.not_none val message = Ok val ↔ val ≠ VNone)
  ∧ ((∃ m, TypeUtils.not_none val message = Err (ValueError m)) ↔ val = VNone)
  ∧ (∀ r, TypeUtils.not_none val message = Ok r → r = val)
  ∧ (TypeUtils.checked_cast typ val exception = Ok val ↔ isinstance val typ = true)
  ∧ ((∃ e, TypeUtils.checked_cast typ val exception = Err e) ↔ isinstance val typ = false)
  ∧ (∀ r, TypeUtils.checked_cast typ val exception = Ok r → r = val)
  ∧ (isinstance val typ = false →
     TypeUtils.checked_cast typ val None = Err (ValueError (NotOfType typ val))
     ∧ ∀ e, TypeUtils.checked_cast typ val (Some e) = Err e).
Proof.
  unfold TypeUtils.not_none, TypeUtils.checked_cast.
  split_and!.
  - split; [intros Hok Hn; subst val; simpl in Hok; discriminate |].
    intros Hn. destruct val; simpl; congruence.
  - split; [intros [m Hm]; destruct val; simpl in Hm; congruence |].
    intros ->. simpl. eauto.
  - intros r Hr. destruct val; simpl in Hr; congruence.
  - destruct (isinstance val typ); simpl; split; congruence.
  - destruct (isinstance val typ); simpl.
    + split; [intros [e He] |]; discriminate.
    + split; [done | eauto].
  - intros r Hr. destruct (isinstance val typ); simpl in Hr; congruence.
  - intros ->. simpl. split; [done | intros e; done].
Qed.

(** ** Validation *)

Lemma gen_validate_cases (cfg : TorchOptConfig) :
  (isSome (linear_constraints cfg) || isSome (outcome_constraints cfg) = true
   ∧ gen_validate cfg
     = Err (UnsupportedError
              (Text "Constraints are not yet supported by max-value entropy search!")))
  ∨ (linear_constraints cfg = None ∧ outcome_constraints cfg = None
     ∧ (1 < length (objective_weights cfg))%nat
     ∧ gen_validate cfg
       = Err (UnsupportedError
                (Text "Models with multiple outcomes are not yet supported by MES!")))
  ∨ (linear_constraints cfg = None ∧ outcome_constraints cfg = None
     ∧ (length (objective_weights cfg) ≤ 1)%nat
     ∧ gen_validate cfg = Ok tt).
Proof.
  unfold gen_validate.
  destruct (linear_constraints cfg), (outcome_constraints cfg); simpl;
    try (left; done).
  destruct (Nat.ltb_spec 1 (length (objective_weights cfg)));
    [right; left | right; right]; done.
Qed.

Lemma gen_validate_err `{collaborators} self n ssd cfg w e :
  gen_validate cfg = Err e → gen self n ssd cfg w = (Err e, w).
Proof. intros He. unfold gen. apply bind_err. unfold lift. by rewrite He. Qed.

(** C1 (as amended): [gen] raises [UnsupportedError] from its guards exactly
    when the configuration carries linear constraints, carries outcome
    constraints, or has more than one objective weight; the error then ends
    the call with the world untouched.  A configuration with no constraints
    and exactly one objective weight passes validation. *)
Theorem gen_validate_unsupported_iff `{collaborators} (self : MaxValueEntropySearch)
    (n : Z) (ssd : SearchSpaceDigest) (cfg : TorchOptConfig) (w : world) :
  ((∃ m, gen_validate cfg = Err (UnsupportedError m))
   ↔ (linear_constraints cfg ≠ None ∨ outcome_constraints cfg ≠ None
      ∨ (1 < length (objective_weights cfg))%nat))
  ∧ (gen_validate cfg = Ok tt
     ↔ (linear_constraints cfg = None ∧ outcome_constraints cfg = None
        ∧ (length (objective_weights cfg) ≤ 1)%nat))
  ∧ (∀ e, gen_validate cfg = Err e →
          (∃ m, e = UnsupportedError m) ∧ gen self n ssd cfg w = (Err e, w))
  ∧ (linear_constraints cfg = None → outcome_constraints cfg = None →
     length (objective_weights cfg) = 1%nat → gen_validate cfg = Ok tt).
Proof.
  pose proof (gen_validate_cases cfg)
    as [(Hc & Hv) | [(Hlc & Hoc & Hlen & Hv) | (Hlc & Hoc & Hlen & Hv)]];
    rewrite Hv.
  - split_and!.
    + split; [intros _ | eauto].
      destruct (linear_constraints cfg), (outcome_constraints cfg);
        simpl in Hc; [left | left | right; left | ]; congruence.
    + split; [discriminate |]. intros (Hlc & Hoc & _).
      rewrite Hlc, Hoc in Hc. discriminate.
    + intros e [= <-]. split; [eauto | by apply gen_validate_err].
    + intros Hlc Hoc. rewrite Hlc, Hoc in Hc. discriminate.
  - split_and!.
    + split; [intros _; right; right; lia | eauto].
    + split; [discriminate |]. intros (_ & _ & Hle). lia.
    + intros e [= <-]. split; [eauto | by apply gen_validate_err].
    + intros _ _ Hone. lia.
  - split_and!.
    + split; [intros [m Hm]; discriminate |].
      intros [Hl | [Ho | Hlt]]; [congruence | congruence | lia].
    + split; [done | reflexivity].
    + intros e He. discriminate.
    + done.
Qed.

(** C1 (as stated) fails for an empty weight vector: its length is not 1 and
    there are no constraints, yet validation passes and the call does not end
    in [UnsupportedError]. *)
Lemma gen_validate_empty_weights_pass :
  length (objective_weights (demo_cfg [] (Some demo_opts))) ≠ 1%nat
  ∧ gen_validate (demo_cfg [] (Some demo_opts)) = Ok tt
  ∧ fst (gen (H := demo) demo_self 3 demo_ssd (demo_cfg [] (Some demo_opts)) demo_world)
    = Err IndexError.
Proof. split; [simpl; lia | split; vm_compute; reflexivity]. Qed.

(** ** Construction of the acquisition function *)

Lemma default_fidelity_weights_keys (tf : gmap Z float) :
  dom (default_fidelity_weights tf) = target_keys tf.
Proof.
  unfold default_fidelity_weights, target_keys.
  rewrite dom_kmap_L by apply _. by rewrite dom_fmap_L.
Qed.

Lemma default_fidelity_weights_lookup (tf : gmap Z float) (k : key) (v : value) :
  default_fidelity_weights tf !! k = Some v
  ↔ ∃ f, k = KInt f ∧ f ∈ dom tf ∧ v = VFloat 1%float.
Proof.
  unfold default_fidelity_weights. rewrite lookup_kmap_Some by apply _.
  split.
  - intros (f & -> & Hf). apply lookup_fmap_Some in Hf as (x & <- & Hx).
    exists f. split_and!; [done | by apply elem_of_dom | done].
  - intros (f & -> & [x Hx]%elem_of_dom & ->). exists f. split; [done |].
    rewrite lookup_fmap, Hx. done.
Qed.

(** C3 (as amended): with non-empty target fidelities and no fidelity
    weights, every fidelity feature gets weight 1.0 and the cost-aware
    acquisition function is built; with non-empty target fidelities and
    fidelity weights whose key set differs from the target fidelities' key
    set, construction raises the index-mismatch [RuntimeError] and returns
    no acquisition function. *)
Theorem instantiate_MES_fidelity_weights (model : nat)
    (candidate_set : list (list float))
    (num_fantasies num_mv_samples num_y_samples : value)
    (X_pending : option (list (list float))) (maximize : bool)
    (num_trace_observations : value) (tf : gmap Z float)
    (cost_intercept : float) :
  tf ≠ ∅ →
  (∃ a p e,
      _instantiate_MES model candidate_set num_fantasies num_mv_samples
        num_y_samples X_pending maximize num_trace_observations (Some tf) VNone
        cost_intercept
      = Ok (qMultiFidelityMaxValueEntropy a
              {| cost_model :=
                   {| fidelity_weights := VDict (default_fidelity_weights tf);
                      fixed_cost := cost_intercept |} |} p e))
  ∧ (∀ k v, default_fidelity_weights tf !! k = Some v
            ↔ ∃ f, k = KInt f ∧ f ∈ dom tf ∧ v = VFloat 1%float)
  ∧ (∀ d : gmap key value,
       dom d ≠ target_keys tf →
       _instantiate_MES model candidate_set num_fantasies num_mv_samples
         num_y_samples X_pending maximize num_trace_observations (Some tf)
         (VDict d) cost_intercept
       = Err (RuntimeError (IndexMismatch (target_keys tf) (dom d)))).
Proof.
  intros Htf. split_and!.
  - unfold _instantiate_MES. rewrite bool_decide_eq_false_2 by done. simpl.
    rewrite default_fidelity_weights_keys.
    rewrite bool_decide_eq_true_2 by done. simpl. eauto.
  - apply default_fidelity_weights_lookup.
  - intros d Hd. unfold _instantiate_MES.
    rewrite bool_decide_eq_false_2 by done. simpl.
    rewrite bool_decide_eq_false_2 by done. done.
Qed.

Lemma instantiate_MES_fidelity_weights_witness :
  ({[ 2 := 1%float ]} : gmap Z float) ≠ ∅
  ∧ _instantiate_MES 0 [] (VInt 16) (VInt 10) (VInt 128) None true (VInt 0)
      (Some {[ 2 := 1%float ]}) (VDict {[ KInt 3 := VFloat 0.5%float ]}) 1%float
    = Err (RuntimeError (IndexMismatch (target_keys {[ 2 := 1%float ]})
                           (dom ({[ KInt 3 := VFloat 0.5%float ]} : gmap key value)))).
Proof.
  assert (Hne : ({[ 2 := 1%float ]} : gmap Z float) ≠ ∅)
    by apply insert_non_empty.
  split; [exact Hne |].
  apply (instantiate_MES_fidelity_weights 0 [] (VInt 16) (VInt 10) (VInt 128)
           None true (VInt 0) {[ 2 := 1%float ]} 1%float Hne).
  vm_compute. discriminate.
Defined.

(** C3 (as stated) fails without target fidelities: the fidelity weights
    [{3: 0.5}] are supplied and their key set differs from the empty key set
    of the target fidelities, yet nothing is raised and the standard
    acquisition function is built, for an empty dictionary of target
    fidelities as for [None]. *)
Lemma instantiate_MES_ignores_weights_without_targets :
  dom ({[ KInt 3 := VFloat 0.5%float ]} : gmap key value) ≠ target_keys ∅
  ∧ _instantiate_MES 0 [] (VInt 16) (VInt 10) (VInt 128) None true (VInt 0)
      (Some ∅) (VDict {[ KInt 3 := VFloat 0.5%float ]}) 1%float
    = Ok (qMaxValueEntropy
            {| mes_model := 0; mes_candidate_set := [];
               mes_num_fantasies := VInt 16; mes_num_mv_samples := VInt 10;
               mes_num_y_samples := VInt 128; mes_X_pending := None;
               mes_maximize := true |})
  ∧ _instantiate_MES 0 [] (VInt 16) (VInt 10) (VInt 128) None true (VInt 0)
      None (VDict {[ KInt 3 := VFloat 0.5%float ]}) 1%float
    = Ok (qMaxValueEntropy
            {| mes_model := 0; mes_candidate_set := [];
               mes_num_fantasies := VInt 16; mes_num_mv_samples := VInt 10;
               mes_num_y_samples := VInt 128; mes_X_pending := None;
               mes_maximize := true |}).
Proof.
  split; [vm_compute; discriminate |]. split; reflexivity.
Qed.

(** ** Fail-fast validation *)

(** C6: with linear constraints set, [gen] raises [UnsupportedError] at
    once: the world after the call is the world before it, so the
    candidate-set sampler was not invoked and no model was subset. *)
Theorem gen_linear_constraints_fail_fast `{collaborators}
    (self : MaxValueEntropySearch) (n : Z) (ssd : SearchSpaceDigest)
    (cfg : TorchOptConfig) (w : world) :
  linear_constraints cfg ≠ None →
  gen self n ssd cfg w
  = (Err (UnsupportedError
            (Text "Constraints are not yet supported by max-value entropy search!")), w)
  ∧ existsb is_sampler_call (new_calls w (snd (gen self n ssd cfg w))) = false
  ∧ existsb is_subset_call (new_calls w (snd (gen self n ssd cfg w))) = false
  ∧ heap (snd (gen self n ssd cfg w)) = heap w.
Proof.
  intros Hlc.
  assert (Hg : gen self n ssd cfg w
               = (Err (UnsupportedError
                    (Text "Constraints are not yet supported by max-value entropy search!")), w)).
  { apply gen_validate_err. unfold gen_validate.
    destruct (linear_constraints cfg); [done | congruence]. }
  rewrite Hg. simpl. unfold new_calls. rewrite Nat.sub_diag. done.
Qed.

Lemma gen_linear_constraints_fail_fast_witness :
  linear_constraints demo_cfg_linear ≠ None
  ∧ gen (H := demo) demo_self 3 demo_ssd demo_cfg_linear demo_world
    = (Err (UnsupportedError
              (Text "Constraints are not yet supported by max-value entropy search!")),
       demo_world).
Proof.
  assert (Hlc : linear_constraints demo_cfg_linear ≠ None) by discriminate.
  split; [exact Hlc |].
  exact (proj1 (gen_linear_constraints_fail_fast (H := demo) demo_self 3 demo_ssd
                  demo_cfg_linear demo_world Hlc)).
Defined.

(** ** Anatomy of a successful construction phase *)

Lemma gen_subset_run (self : MaxValueEntropySearch) (cfg : TorchOptConfig)
    (w : world) (m : nat) (ows : list float) (w1 : world) :
  gen_subset self cfg w = (Ok (m, ows), w1) →
  (truthy (dict_get (gen_options cfg) "subset_model" (VBool true)) = false
   ∧ m = model self ∧ ows = objective_weights cfg ∧ w1 = w)
  ∨ (truthy (dict_get (gen_options cfg) "subset_model" (VBool true)) = true
     ∧ ∃ d h', subset_model (heap w) (model self) (objective_weights cfg)
                 (outcome_constraints cfg) = Ok (d, h')
               ∧ m = sm_model d ∧ ows = sm_objective_weights d
               ∧ w1 = {| heap := h'; rng := rng w;
                         calls := CallSubsetModel (model self) :: calls w |}).
Proof.
  unfold gen_subset.
  destruct (truthy (dict_get (gen_options cfg) "subset_model" (VBool true))).
  - intros Hrun. right. split; [done |].
    apply bind_ok in Hrun as (d & w2 & Hcall & Hrun).
    apply ret_ok in Hrun as [[= -> ->] ->].
    unfold call_subset_model in Hcall.
    apply bind_ok in Hcall as (u & w3 & Hrec & Hcall).
    apply record_call_ok in Hrec as ->. simpl in Hcall.
    destruct (subset_model (heap w) (model self) (objective_weights cfg)
                (outcome_constraints cfg)) as [[d' h']|e]; [| discriminate].
    injection Hcall as -> <-. eauto 10.
  - intros Hrun. left. apply ret_ok in Hrun as [[= -> ->] ->]. done.
Qed.

Lemma gen_build_run `{collaborators} (self : MaxValueEntropySearch)
    (ssd : SearchSpaceDigest) (cfg : TorchOptConfig) (w : world)
    (b : gen_locals) (w' : world) :
  gen_build self ssd cfg w = (Ok b, w') →
  ∃ (Xpo : option (list (list float)) * option (list (list float)))
    m ows w1 acf oo bnds cs mx,
    gen_subset self cfg w = (Ok (m, ows), w1)
    ∧ as_dict (dict_get (gen_options cfg) "acquisition_function_kwargs" (VDict ∅)) = Ok acf
    ∧ as_dict (dict_get (gen_options cfg) "optimizer_kwargs" (VDict ∅)) = Ok oo
    ∧ transpose_bounds (bounds ssd) = Ok bnds
    ∧ torch_rand (rng w1) (dict_get acf "candidate_size" (VInt 1000))
        (length (fst bnds)) = Ok cs
    ∧ gen_maximize ows = Ok mx
    ∧ _instantiate_MES m (rescale bnds cs)
        (dict_get acf "num_fantasies" (VInt 16))
        (dict_get acf "num_mv_samples" (VInt 10))
        (dict_get acf "num_y_samples" (VInt 128))
        (fst Xpo) mx
        (dict_get (gen_options cfg) "num_trace_observations" (VInt 0))
        (Some (gen_target_fidelities ssd))
        (dict_get (gen_options cfg) "fidelity_weights" VNone)
        (cost_intercept self) = Ok (acq_function b)
    ∧ bounds_ b = bnds
    ∧ optimizer_options b = oo
    ∧ num_restarts b = dict_get oo "num_restarts" (VInt 40)
    ∧ raw_samples b = dict_get oo "raw_samples" (VInt 1024)
    ∧ w' = {| heap := heap w1; rng := S (rng w1);
              calls := CallSampler (dict_get acf "candidate_size" (VInt 1000))
                         (length (fst bnds)) :: calls w1 |}.
Proof.
  intros Hrun. unfold gen_build, sample_candidate_set in Hrun.
  run_ok Hrun.
  match goal with p : (nat * list float)%type |- _ => destruct p as [m ows] end.
  simpl in *.
  do 9 eexists. split_and!; try eassumption; reflexivity.
Qed.

Lemma instantiate_MES_args model cs nf nmv ny Xp mx nto tf fw ci acq :
  _instantiate_MES model cs nf nmv ny Xp mx nto tf fw ci = Ok acq →
  acqf_args acq
  = {| mes_model := model; mes_candidate_set := cs; mes_num_fantasies := nf;
       mes_num_mv_samples := nmv; mes_num_y_samples := ny;
       mes_X_pending := Xp; mes_maximize := mx |}.
Proof.
  unfold _instantiate_MES. intros Hacq.
  repeat case_match; simplify_eq; reflexivity.
Qed.

Lemma instantiate_MES_standard model cs nf nmv ny Xp mx nto fw ci acq :
  _instantiate_MES model cs nf nmv ny Xp mx nto (Some ∅) fw ci = Ok acq →
  ∃ a, acq = qMaxValueEntropy a.
Proof.
  unfold _instantiate_MES. rewrite bool_decide_eq_true_2 by done.
  intros [= <-]. eauto.
Qed.

Lemma instantiate_MES_multi_fidelity model cs nf nmv ny Xp mx nto tf fw ci acq :
  tf ≠ ∅ →
  _instantiate_MES model cs nf nmv ny Xp mx nto (Some tf) fw ci = Ok acq →
  ∃ a weights,
    acq = qMultiFidelityMaxValueEntropy a
            {| cost_model := {| fidelity_weights := weights; fixed_cost := ci |} |}
            {| project_target_fidelities := tf |}
            {| fidelity_dims := sorted_keys tf; num_trace_obs := nto |}
    ∧ weights = (if is_none fw then VDict (default_fidelity_weights tf) else fw)
    ∧ py_set weights = Ok (target_keys tf).
Proof.
  intros Htf. unfold _instantiate_MES.
  rewrite bool_decide_eq_false_2 by done.
  destruct (py_set _) as [ks|e] eqn:Hks; [| discriminate].
  case_bool_decide as Hkeys; simpl; [| discriminate].
  intros [= <-]. rewrite Hkeys. eauto.
Qed.

Lemma gen_target_fidelities_no_features (ssd : SearchSpaceDigest) :
  fidelity_features ssd = [] → gen_target_fidelities ssd = ∅.
Proof.
  intros Hff. unfold gen_target_fidelities. apply map_empty. intros i.
  apply map_lookup_filter_None. right. intros x _. simpl. rewrite Hff.
  apply not_elem_of_nil.
Qed.

Lemma gen_target_fidelities_some_feature (ssd : SearchSpaceDigest) :
  fidelity_features ssd ≠ [] →
  (∀ f, f ∈ fidelity_features ssd → is_Some (target_values ssd !! f)) →
  gen_target_fidelities ssd ≠ ∅.
Proof.
  intros Hff Hall. destruct (fidelity_features ssd) as [|f ff] eqn:Heq; [done |].
  destruct (Hall f) as [x Hx]; [apply elem_of_cons; by left |].
  intros Hempty.
  assert (Hl : gen_target_fidelities ssd !! f = Some x).
  { unfold gen_target_fidelities. apply map_lookup_filter_Some. split; [done |].
    simpl. rewrite Heq. apply elem_of_cons. by left. }
  rewrite Hempty, lookup_empty in Hl. discriminate.
Qed.

Lemma subset_single_weight (w0 : float)
    (oc : option (list (list float) * list (list float))) :
  nonzero w0 = true → pick [w0] (required_outcomes [w0] oc) = [w0].
Proof.
  intros Hnz. unfold required_outcomes, outcome_required. simpl.
  rewrite Hnz. reflexivity.
Qed.

(** ** Progress of the construction phase *)

Lemma bind_run {A B} (m : M A) (k : A → M B) w a w1 :
  m w = (Ok a, w1) → bind m k w = k a w1.
Proof. unfold bind. by intros ->. Qed.

Lemma gen_subset_single (self : MaxValueEntropySearch) (cfg : TorchOptConfig)
    (w : world) (w0 : float) :
  objective_weights cfg = [w0] → nonzero w0 = true →
  (truthy (dict_get (gen_options cfg) "subset_model" (VBool true)) = false
   ∨ is_Some (heap w !! model self)) →
  ∃ m w1, gen_subset self cfg w = (Ok (m, [w0]), w1).
Proof.
  intros Hw0 Hnz Hsub. unfold gen_subset.
  destruct (truthy _) eqn:Ht.
  - destruct Hsub as [? | [mo Hmo]]; [discriminate |].
    unfold call_subset_model, subset_model.
    erewrite bind_run;
      [| erewrite bind_run; [| reflexivity]; simpl; rewrite Hmo; reflexivity].
    unfold ret. simpl. rewrite Hw0, subset_single_weight by done. eauto.
  - rewrite Hw0. unfold ret. eauto.
Qed.

Lemma instantiate_MES_succeeds model cs nf nmv ny Xp mx nto tf fw ci :
  (fw = VNone ∨ ∃ d, fw = VDict d ∧ dom d = target_keys tf) →
  ∃ acq, _instantiate_MES model cs nf nmv ny Xp mx nto (Some tf) fw ci = Ok acq.
Proof.
  intros Hfw. unfold _instantiate_MES.
  case_bool_decide; [eauto |].
  destruct Hfw as [-> | (d & -> & Hd)]; simpl.
  - rewrite default_fidelity_weights_keys.
    rewrite bool_decide_eq_true_2 by done. simpl. eauto.
  - rewrite Hd. rewrite bool_decide_eq_true_2 by done. simpl. eauto.
Qed.

Lemma transpose_bounds_nonempty (b : list (float * float)) :
  b ≠ [] → transpose_bounds b = Ok (map fst b, map snd b).
Proof. by destruct b. Qed.

(** The construction phase reaches a constructor of an acquisition function
    when the collaborators return: for a single non-zero objective weight,
    well-formed option dictionaries, a search space with at least one
    dimension and fidelity weights that are absent or keyed like the target
    fidelities.  (The constructors themselves are BoTorch code; what they
    return is represented by their call.) *)
Lemma gen_build_succeeds `{collaborators} (self : MaxValueEntropySearch)
    (ssd : SearchSpaceDigest) (cfg : TorchOptConfig) (w : world) (w0 : float)
    (acf oo : gmap key value) :
  is_ok (_get_X_pending_and_observed (Xs self) (objective_weights cfg)
           (bounds ssd) (pending_observations cfg) (outcome_constraints cfg)
           (linear_constraints cfg) (fixed_features cfg)) = true →
  objective_weights cfg = [w0] → nonzero w0 = true →
  (truthy (dict_get (gen_options cfg) "subset_model" (VBool true)) = false
   ∨ is_Some (heap w !! model self)) →
  dict_get (gen_options cfg) "acquisition_function_kwargs" (VDict ∅) = VDict acf →
  dict_get (gen_options cfg) "optimizer_kwargs" (VDict ∅) = VDict oo →
  bounds ssd ≠ [] →
  (∀ seed, is_ok (torch_rand seed (dict_get acf "candidate_size" (VInt 1000))
                    (length (bounds ssd))) = true) →
  (dict_get (gen_options cfg) "fidelity_weights" VNone = VNone
   ∨ ∃ d, dict_get (gen_options cfg) "fidelity_weights" VNone = VDict d
          ∧ dom d = target_keys (gen_target_fidelities ssd)) →
  ∃ b w', gen_build self ssd cfg w = (Ok b, w').
Proof.
  intros HX Hw0 Hnz Hsub Hacf Hoo Hb Hrand Hfw.
  unfold gen_build.
  destruct (_get_X_pending_and_observed _ _ _ _ _ _ _) as [Xpo|] eqn:HXpo;
    [| discriminate].
  destruct (gen_subset_single self cfg w w0 Hw0 Hnz Hsub) as (m & w1 & Hs).
  rewrite Hacf, Hoo.
  erewrite bind_run; [| reflexivity].
  erewrite bind_run; [| exact Hs].
  erewrite bind_run; [| reflexivity].
  erewrite bind_run; [| reflexivity].
  erewrite bind_run;
    [| unfold lift; rewrite (transpose_bounds_nonempty _ Hb); reflexivity].
  unfold sample_candidate_set.
  specialize (Hrand (rng w1)).
  destruct (torch_rand (rng w1) _ _) as [cs|] eqn:Hcs; [| discriminate].
  erewrite bind_run;
    [| erewrite bind_run; [| reflexivity];
       erewrite bind_run; [| reflexivity];
       unfold lift; simpl; rewrite length_map, Hcs; reflexivity].
  erewrite bind_run; [| reflexivity].
  match goal with
  | |- context [_instantiate_MES ?a ?b ?c ?d ?e ?f ?g ?h _ _ ?k] =>
      destruct (instantiate_MES_succeeds a b c d e f g h
                  (gen_target_fidelities ssd) _ k Hfw) as [acq Hacq]
  end.
  erewrite bind_run; [| unfold lift; rewrite Hacq; reflexivity].
  unfold ret. eauto.
Qed.

(** C2: with no fidelity features, a configuration that passes validation is
    given the standard acquisition function; with at least one fidelity
    feature, each with an entry in the target values, it is given the
    cost-aware multi-fidelity one, built over the target fidelities of the
    search space and the cost intercept of the generator. *)
Theorem gen_acquisition_path `{collaborators} (self : MaxValueEntropySearch)
    (ssd : SearchSpaceDigest) (cfg : TorchOptConfig) (w : world)
    (b : gen_locals) (w' : world) :
  gen_validate cfg = Ok tt →
  gen_build self ssd cfg w = (Ok b, w') →
  (fidelity_features ssd = [] → ∃ a, acq_function b = qMaxValueEntropy a)
  ∧ (fidelity_features ssd ≠ [] →
     (∀ f, f ∈ fidelity_features ssd → is_Some (target_values ssd !! f)) →
     ∃ a u p e,
       acq_function b = qMultiFidelityMaxValueEntropy a u p e
       ∧ project_target_fidelities p = gen_target_fidelities ssd
       ∧ fixed_cost (cost_model u) = cost_intercept self
       ∧ fidelity_dims e = sorted_keys (gen_target_fidelities ssd)).
Proof.
  intros _ Hrun.
  apply gen_build_run in Hrun
    as (Xpo & m & ows & w1 & acf & oo & bnds & cs & mx & _ & _ & _ & _ & _ & _
        & Hacq & _).
  split.
  - intros Hff. rewrite (gen_target_fidelities_no_features ssd Hff) in Hacq.
    by apply instantiate_MES_standard in Hacq.
  - intros Hff Hall.
    apply instantiate_MES_multi_fidelity in Hacq
      as (a & ws & -> & _ & _);
      [| by apply gen_target_fidelities_some_feature].
    by eexists _, _, _, _.
Qed.

Lemma gen_acquisition_path_witness :
  ∃ b w',
    gen_validate (demo_cfg [1%float] (Some demo_opts)) = Ok tt
    ∧ gen_build (H := demo) demo_self demo_ssd_mf
        (demo_cfg [1%float] (Some demo_opts)) demo_world = (Ok b, w')
    ∧ fidelity_features demo_ssd_mf ≠ []
    ∧ (∀ f, f ∈ fidelity_features demo_ssd_mf
            → is_Some (target_values demo_ssd_mf !! f))
    ∧ ∃ a u p e,
        acq_function b = qMultiFidelityMaxValueEntropy a u p e
        ∧ project_target_fidelities p = gen_target_fidelities demo_ssd_mf
        ∧ fixed_cost (cost_model u) = cost_intercept demo_self
        ∧ fidelity_dims e = sorted_keys (gen_target_fidelities demo_ssd_mf).
Proof.
  eexists _, _.
  assert (Hv : gen_validate (demo_cfg [1%float] (Some demo_opts)) = Ok tt)
    by reflexivity.
  assert (Hff : fidelity_features demo_ssd_mf ≠ []) by discriminate.
  assert (Hall : ∀ f, f ∈ fidelity_features demo_ssd_mf
                      → is_Some (target_values demo_ssd_mf !! f)).
  { intros f Hf. apply list_elem_of_singleton in Hf as ->.
    exists 1%float. reflexivity. }
  split; [exact Hv |]. split; [vm_compute; reflexivity |].
  split; [exact Hff |]. split; [exact Hall |].
  refine (proj2 (gen_acquisition_path (H := demo) demo_self demo_ssd_mf
                   (demo_cfg [1%float] (Some demo_opts)) demo_world _ _ Hv _)
            Hff Hall).
  vm_compute; reflexivity.
Defined.

(** ** The direction of the optimization *)

Lemma gen_maximize_head (ows : list float) (mx : bool) :
  gen_maximize ows = Ok mx →
  ∃ ow rest, ows = ow :: rest ∧ mx = PrimFloat.eqb ow 1.
Proof.
  destruct ows as [|ow rest]; simpl; [discriminate |].
  intros [= <-]. exists ow, rest. by destruct (PrimFloat.eqb ow 1).
Qed.

Lemma gen_build_maximize `{collaborators} (self : MaxValueEntropySearch)
    (ssd : SearchSpaceDigest) (cfg : TorchOptConfig) (w : world)
    (b : gen_locals) (w' : world) :
  gen_build self ssd cfg w = (Ok b, w') →
  ∃ m ow rest w1,
    gen_subset self cfg w = (Ok (m, ow :: rest), w1)
    ∧ mes_model (acqf_args (acq_function b)) = m
    ∧ mes_maximize (acqf_args (acq_function b)) = PrimFloat.eqb ow 1.
Proof.
  intros Hrun.
  apply gen_build_run in Hrun
    as (Xpo & m & ows & w1 & acf & oo & bnds & cs & mx & Hsub & _ & _ & _ & _
        & Hmx & Hacq & _).
  apply gen_maximize_head in Hmx as (ow & rest & -> & ->).
  apply instantiate_MES_args in Hacq.
  exists m, ow, rest, w1. rewrite Hacq. done.
Qed.

(** C8: the acquisition function is built with [maximize] set exactly when
    the first objective weight in use (after model subsetting, when that is
    enabled) compares equal to 1; any other weight, such as 2.0 or 0.5,
    gives a minimizing acquisition function. *)
Theorem gen_maximize_iff_unit_weight `{collaborators}
    (self : MaxValueEntropySearch) (ssd : SearchSpaceDigest)
    (cfg : TorchOptConfig) (w : world) (b : gen_locals) (w' : world) :
  gen_build self ssd cfg w = (Ok b, w') →
  (∃ m ow rest w1,
      gen_subset self cfg w = (Ok (m, ow :: rest), w1)
      ∧ mes_model (acqf_args (acq_function b)) = m
      ∧ mes_maximize (acqf_args (acq_function b)) = PrimFloat.eqb ow 1)
  ∧ gen_maximize [2%float] = Ok false
  ∧ gen_maximize [0.5%float] = Ok false
  ∧ gen_maximize [1%float] = Ok true.
Proof.
  intros Hrun. split_and!; try reflexivity.
  by apply gen_build_maximize in Hrun.
Qed.

Lemma gen_maximize_iff_unit_weight_witness :
  ∃ b w',
    gen_build (H := demo) demo_self demo_ssd
      (demo_cfg [2%float] (Some demo_opts)) demo_world = (Ok b, w')
    ∧ ∃ m ow rest w1,
        gen_subset demo_self (demo_cfg [2%float] (Some demo_opts)) demo_world
        = (Ok (m, ow :: rest), w1)
        ∧ mes_model (acqf_args (acq_function b)) = m
        ∧ mes_maximize (acqf_args (acq_function b)) = PrimFloat.eqb ow 1.
Proof.
  eexists _, _. split; [vm_compute; reflexivity |].
  refine (proj1 (gen_maximize_iff_unit_weight (H := demo) demo_self demo_ssd
                   (demo_cfg [2%float] (Some demo_opts)) demo_world _ _ _)).
  vm_compute; reflexivity.
Defined.

(** C7: for a configuration that passes validation with the single objective
    weight [w0], the acquisition function maximizes when [w0] is 1 and
    minimizes when [w0] is -1. *)
Theorem gen_objective_sign `{collaborators} (self : MaxValueEntropySearch)
    (ssd : SearchSpaceDigest) (cfg : TorchOptConfig) (w0 : float) (w : world)
    (b : gen_locals) (w' : world) :
  gen_validate cfg = Ok tt →
  objective_weights cfg = [w0] →
  gen_build self ssd cfg w = (Ok b, w') →
  (w0 = 1%float → mes_maximize (acqf_args (acq_function b)) = true)
  ∧ (w0 = (-1)%float → mes_maximize (acqf_args (acq_function b)) = false).
Proof.
  intros _ Hw0 Hrun.
  assert (Hflag : nonzero w0 = true →
                  mes_maximize (acqf_args (acq_function b)) = PrimFloat.eqb w0 1).
  { intros Hnz.
    apply gen_build_maximize in Hrun
      as (m & ow & rest & w1 & Hsub & _ & ->).
    apply gen_subset_run in Hsub
      as [(_ & _ & Hows & _) | (_ & d & h' & Hd & _ & Hows & _)].
    - rewrite Hw0 in Hows. by injection Hows as -> _.
    - unfold subset_model in Hd. case_match; [| discriminate].
      injection Hd as <- _. simpl in Hows.
      rewrite Hw0, subset_single_weight in Hows by done.
      by injection Hows as -> _. }
  split; intros ->; by rewrite Hflag.
Qed.

Lemma gen_objective_sign_witness :
  ∃ b w',
    gen_validate (demo_cfg [(-1)%float] (Some demo_opts)) = Ok tt
    ∧ objective_weights (demo_cfg [(-1)%float] (Some demo_opts)) = [(-1)%float]
    ∧ gen_build (H := demo) demo_self demo_ssd
        (demo_cfg [(-1)%float] (Some demo_opts)) demo_world = (Ok b, w')
    ∧ mes_maximize (acqf_args (acq_function b)) = false.
Proof.
  eexists _, _. split; [reflexivity |]. split; [reflexivity |].
  split; [vm_compute; reflexivity |].
  refine (proj2 (gen_objective_sign (H := demo) demo_self demo_ssd
                   (demo_cfg [(-1)%float] (Some demo_opts)) (-1)%float
                   demo_world _ _ eq_refl eq_refl _) eq_refl).
  vm_compute; reflexivity.
Defined.

(** ** Where the option keys are read *)

Lemma take_new_calls (l1 l : list call) :
  take (length (l1 ++ l) - length l) (l1 ++ l) = l1.
Proof.
  rewrite length_app.
  replace (length l1 + length l - length l)%nat with (length l1) by lia.
  apply take_app_length.
Qed.

Lemma gen_build_new_calls `{collaborators} (self : MaxValueEntropySearch)
    (ssd : SearchSpaceDigest) (cfg : TorchOptConfig) (w : world)
    (b : gen_locals) (w' : world) :
  gen_build self ssd cfg w = (Ok b, w') →
  ∃ size dim,
    new_calls w w'
    = CallSampler size dim
        :: (if truthy (dict_get (gen_options cfg) "subset_model" (VBool true))
            then [CallSubsetModel (model self)] else []).
Proof.
  intros Hrun.
  apply gen_build_run in Hrun
    as (Xpo & m & ows & w1 & acf & oo & bnds & cs & mx & Hsub & _ & _ & _ & _
        & _ & _ & _ & _ & _ & _ & ->).
  eexists _, _. unfold new_calls. simpl calls.
  apply gen_subset_run in Hsub
    as [(-> & _ & _ & ->) | (-> & d & h' & _ & _ & _ & ->)]; simpl calls.
  - apply (take_new_calls [_] (calls w)).
  - apply (take_new_calls [_; _] (calls w)).
Qed.

(** C4 (as amended): the keys [subset_model] (default [True]),
    [num_trace_observations] (default 0) and [fidelity_weights] (default
    [None]) are read from the top level of [model_gen_options]: model
    subsetting is invoked exactly when the top-level [subset_model] is true,
    and a multi-fidelity acquisition function carries the top-level
    [num_trace_observations] and the top-level [fidelity_weights] (weight 1.0
    for every target fidelity when that is [None]). *)
Theorem gen_option_keys_top_level `{collaborators} (self : MaxValueEntropySearch)
    (ssd : SearchSpaceDigest) (cfg : TorchOptConfig) (w : world)
    (b : gen_locals) (w' : world) :
  gen_build self ssd cfg w = (Ok b, w') →
  existsb is_subset_call (new_calls w w')
  = truthy (dict_get (gen_options cfg) "subset_model" (VBool true))
  ∧ (∀ a u p e,
       acq_function b = qMultiFidelityMaxValueEntropy a u p e →
       num_trace_obs e
       = dict_get (gen_options cfg) "num_trace_observations" (VInt 0)
       ∧ fidelity_weights (cost_model u)
         = (if is_none (dict_get (gen_options cfg) "fidelity_weights" VNone)
            then VDict (default_fidelity_weights (gen_target_fidelities ssd))
            else dict_get (gen_options cfg) "fidelity_weights" VNone)).
Proof.
  intros Hrun. split.
  - apply gen_build_new_calls in Hrun as (size & dim & ->).
    by destruct (truthy _).
  - intros a u p e Hmf.
    apply gen_build_run in Hrun
      as (Xpo & m & ows & w1 & acf & oo & bnds & cs & mx & _ & _ & _ & _ & _
          & _ & Hacq & _).
    rewrite Hmf in Hacq.
    destruct (decide (gen_target_fidelities ssd = ∅)) as [Hempty|Hne].
    + rewrite Hempty in Hacq.
      apply instantiate_MES_standard in Hacq as [? ?]. discriminate.
    + apply instantiate_MES_multi_fidelity in Hacq
        as (a' & ws & Heq & Hws & _); [| done].
      injection Heq as _ -> _ ->. simpl. by rewrite Hws.
Qed.

Lemma gen_option_keys_top_level_witness :
  ∃ b w',
    gen_build (H := demo) demo_self demo_ssd_mf
      (demo_cfg [1%float] (Some toplevel_opts)) demo_world = (Ok b, w')
    ∧ existsb is_subset_call (new_calls demo_world w') = false
    ∧ (∀ a u p e,
         acq_function b = qMultiFidelityMaxValueEntropy a u p e →
         num_trace_obs e = VInt 3
         ∧ fidelity_weights (cost_model u)
           = VDict {[ KInt 2 := VFloat 0.5%float ]}).
Proof.
  eexists _, _. split; [vm_compute; reflexivity |].
  refine (gen_option_keys_top_level (H := demo) demo_self demo_ssd_mf
            (demo_cfg [1%float] (Some toplevel_opts)) demo_world _ _ _).
  vm_compute; reflexivity.
Defined.

(** C4 (as stated) fails: with [subset_model = False],
    [num_trace_observations = 3] and [fidelity_weights = {2: 0.5}] placed
    inside [acquisition_function_kwargs], [gen] still subsets the model,
    uses no trace observations and gives fidelity feature 2 the default
    weight 1.0. *)
Lemma gen_ignores_nested_option_keys :
  ∃ b w' a u p e,
    model_gen_options (demo_cfg [1%float] (Some nested_opts))
    = Some {[ KStr "acquisition_function_kwargs" := VDict nested_acf ]}
    ∧ dict_get nested_acf "subset_model" (VBool true) = VBool false
    ∧ dict_get nested_acf "num_trace_observations" (VInt 0) = VInt 3
    ∧ dict_get nested_acf "fidelity_weights" VNone
      = VDict {[ KInt 2 := VFloat 0.5%float ]}
    ∧ gen_build (H := demo) demo_self demo_ssd_mf
        (demo_cfg [1%float] (Some nested_opts)) demo_world = (Ok b, w')
    ∧ existsb is_subset_call (new_calls demo_world w') = true
    ∧ mes_model (acqf_args (acq_function b)) ≠ model demo_self
    ∧ acq_function b = qMultiFidelityMaxValueEntropy a u p e
    ∧ num_trace_obs e = VInt 0
    ∧ fidelity_weights (cost_model u) = VDict {[ KInt 2 := VFloat 1%float ]}.
Proof.
  eexists _, _, _, _, _, _.
  split; [reflexivity |]. split; [reflexivity |]. split; [reflexivity |].
  split; [reflexivity |]. split; [vm_compute; reflexivity |].
  split; [reflexivity |]. split; [vm_compute; discriminate |].
  split; [reflexivity |]. split; reflexivity.
Qed.

(** ** The model store *)

Lemma preserves_ret {A} (a : A) : preserves_store (ret a).
Proof. intros w r w' l o [= _ <-]. done. Qed.

Lemma preserves_lift {A} (x : result A) : preserves_store (lift x).
Proof. intros w r w' l o [= _ <-]. done. Qed.

Lemma preserves_record_call (c : call) : preserves_store (record_call c).
Proof. intros w r w' l o [= _ <-]. done. Qed.

Lemma preserves_next_seed : preserves_store next_seed.
Proof. intros w r w' l o [= _ <-]. done. Qed.

Lemma preserves_bind {A B} (m : M A) (k : A → M B) :
  preserves_store m → (∀ a, preserves_store (k a)) → preserves_store (bind m k).
Proof.
  intros Hm Hk w r w' l o Hrun Hl. unfold bind in Hrun.
  destruct (m w) as [[a|e] w1] eqn:Hmw.
  - eapply Hk; [exact Hrun |]. eapply Hm; [exact Hmw | exact Hl].
  - injection Hrun as _ <-. eapply Hm; [exact Hmw | exact Hl].
Qed.

Lemma subset_model_frame (h : gmap nat model_obj) (m : nat) (ow : list float)
    (oc : option (list (list float) * list (list float)))
    (d : SubsetModelData) (h' : gmap nat model_obj) :
  subset_model h m ow oc = Ok (d, h') →
  (sm_model d ∉ dom h) ∧ (∀ l o, h !! l = Some o → h' !! l = Some o).
Proof.
  unfold subset_model. destruct (h !! m) as [mo|]; [| discriminate].
  intros [= <- <-]. simpl. split; [apply is_fresh |].
  intros l o Hl. rewrite lookup_insert_ne; [done |].
  intros <-. apply (is_fresh (dom h)). apply elem_of_dom. eauto.
Qed.

Lemma preserves_call_subset_model (m : nat) (ow : list float)
    (oc : option (list (list float) * list (list float))) :
  preserves_store (call_subset_model m ow oc).
Proof.
  unfold call_subset_model. apply preserves_bind; [apply preserves_record_call |].
  intros _ w r w' l o Hrun Hl.
  destruct (subset_model (heap w) m ow oc) as [[d h']|e] eqn:Hsm.
  - injection Hrun as _ <-. simpl.
    by apply (subset_model_frame _ _ _ _ _ _ Hsm).
  - by injection Hrun as _ <-.
Qed.

Ltac preserves :=
  repeat first
    [ apply preserves_ret
    | apply preserves_lift
    | apply preserves_record_call
    | apply preserves_next_seed
    | apply preserves_call_subset_model
    | apply preserves_bind; [| intros ?]
    | progress cbv zeta ].

Lemma preserves_gen_subset (self : MaxValueEntropySearch) (cfg : TorchOptConfig) :
  preserves_store (gen_subset self cfg).
Proof. unfold gen_subset. case_match; preserves. Qed.

Lemma preserves_gen `{collaborators} (self : MaxValueEntropySearch) (n : Z)
    (ssd : SearchSpaceDigest) (cfg : TorchOptConfig) :
  preserves_store (gen self n ssd cfg).
Proof.
  unfold gen, gen_build, gen_optimize, sample_candidate_set, call_optimize_acqf.
  preserves. apply preserves_gen_subset.
Qed.

(** C9: whatever the outcome of [gen], every object of the model store, the
    generator's own model among them, is afterwards what it was before;
    model subsetting builds its view at an address that was unused.  With
    subsetting disabled, [gen] goes on with the generator's model and the
    configuration's objective weights as they are: the acquisition function
    is built over that model, its direction is computed from those weights,
    and no subsetting call is made. *)
Theorem gen_model_untouched `{collaborators} (self : MaxValueEntropySearch)
    (n : Z) (ssd : SearchSpaceDigest) (cfg : TorchOptConfig) (w : world)
    (r : result TorchGenResults) (w' : world) :
  gen self n ssd cfg w = (r, w') →
  (∀ l o, heap w !! l = Some o → heap w' !! l = Some o)
  ∧ (∀ d h', subset_model (heap w) (model self) (objective_weights cfg)
               (outcome_constraints cfg) = Ok (d, h') →
             (sm_model d ∉ dom (heap w))
             ∧ (∀ l o, heap w !! l = Some o → h' !! l = Some o))
  ∧ (truthy (dict_get (gen_options cfg) "subset_model" (VBool true)) = false →
     gen_subset self cfg w = (Ok (model self, objective_weights cfg), w)
     ∧ ∀ b w1, gen_build self ssd cfg w = (Ok b, w1) →
         mes_model (acqf_args (acq_function b)) = model self
         ∧ gen_maximize (objective_weights cfg)
           = Ok (mes_maximize (acqf_args (acq_function b)))
         ∧ heap w1 = heap w
         ∧ existsb is_subset_call (new_calls w w1) = false).
Proof.
  intros Hrun. split_and!.
  - intros l o. by apply (preserves_gen self n ssd cfg w r w').
  - intros d h'. apply subset_model_frame.
  - intros Hoff. split; [unfold gen_subset; by rewrite Hoff |].
    intros b w1 Hb.
    pose proof (gen_build_new_calls _ _ _ _ _ _ Hb) as (size & dim & Hcalls).
    rewrite Hoff in Hcalls.
    apply gen_build_run in Hb
      as (Xpo & m & ows & w2 & acf & oo & bnds & cs & mx & Hsub & _ & _ & _ & _
          & Hmx & Hacq & _ & _ & _ & _ & ->).
    apply gen_subset_run in Hsub
      as [(_ & -> & -> & ->) | (Hon & _)]; [| congruence].
    apply instantiate_MES_args in Hacq. rewrite Hacq, Hcalls. simpl.
    by rewrite Hmx.
Qed.

Lemma gen_model_untouched_witness :
  ∃ r w',
    gen (H := demo) demo_self 3 demo_ssd (demo_cfg [1%float] (Some demo_opts))
      demo_world = (r, w')
    ∧ (∀ l o, heap demo_world !! l = Some o → heap w' !! l = Some o).
Proof.
  eexists _, _. split; [vm_compute; reflexivity |].
  refine (proj1 (gen_model_untouched (H := demo) demo_self 3 demo_ssd
                   (demo_cfg [1%float] (Some demo_opts)) demo_world _ _ _)).
  vm_compute; reflexivity.
Defined.

(** ** The generated batch *)

Lemma zip_fst_snd_bounds (b : list (float * float)) :
  zip (map fst b) (map snd b) = b.
Proof. induction b as [|[lo hi] b IH]; simpl; [done | by rewrite IH]. Qed.

Lemma transpose_bounds_zip (b : list (float * float)) (bnds : list float * list float) :
  transpose_bounds b = Ok bnds → zip (fst bnds) (snd bnds) = b.
Proof.
  destruct b as [|p b]; [discriminate |].
  intros [= <-]. apply (zip_fst_snd_bounds (p :: b)).
Qed.

Lemma torch_ones_ok (n : Z) (ones : list float) :
  torch_ones n = Ok ones → (0 ≤ n)%Z ∧ ones = replicate (Z.to_nat n) 1%float.
Proof.
  unfold torch_ones. destruct (Z.ltb_spec n 0); [discriminate |].
  intros [= <-]. done.
Qed.

Lemma gen_optimize_run `{collaborators} (n : Z) (cfg : TorchOptConfig)
    (b : gen_locals) (w : world) (r : TorchGenResults) (w' : world) :
  gen_optimize n cfg b w = (Ok r, w') →
  ∃ args v,
    optimize_acqf (rng w) args = Ok (points r, v)
    ∧ opt_acq_function args = acq_function b
    ∧ opt_bounds args = bounds_ b
    ∧ opt_q args = n
    ∧ opt_fixed_features args = fixed_features cfg
    ∧ opt_sequential args = true
    ∧ torch_ones n = Ok (weights r)
    ∧ w' = {| heap := heap w; rng := S (rng w);
              calls := CallOptimizer args :: calls w |}.
Proof.
  intros Hrun. unfold gen_optimize, call_optimize_acqf in Hrun.
  run_ok Hrun. simpl in *.
  match goal with p : (list (list float) * list float)%type |- _ =>
    destruct p as [X v] end.
  eexists _, v. split_and!; try eassumption; reflexivity.
Qed.

(** C5: when the acquisition optimizer honours its contract (it returns as
    many points as requested, each within the bounds it is given), a
    successful call of [gen] for [n] points returns exactly [n] points, each
    within the bounds of the search space, and exactly [n] weights, all 1.0;
    the configuration of such a call carries no constraints and at most one
    objective weight. *)
Theorem gen_batch_shape `{collaborators} (self : MaxValueEntropySearch) (n : Z)
    (ssd : SearchSpaceDigest) (cfg : TorchOptConfig) (w : world)
    (r : TorchGenResults) (w' : world) :
  optimizer_respects_bounds →
  gen self n ssd cfg w = (Ok r, w') →
  gen_validate cfg = Ok tt
  ∧ (0 ≤ n)%Z
  ∧ length (points r) = Z.to_nat n
  ∧ Forall (in_bounds (bounds ssd)) (points r)
  ∧ length (weights r) = Z.to_nat n
  ∧ weights r = replicate (Z.to_nat n) 1%float
  ∧ Forall (λ x, x = 1%float) (weights r).
Proof.
  intros Hopt Hrun. unfold gen in Hrun.
  apply bind_ok in Hrun as ([] & w0 & Hval & Hrun).
  apply lift_ok in Hval as [Hval ->].
  apply bind_ok in Hrun as (b & w1 & Hb & Hrun).
  apply gen_build_run in Hb
    as (Xpo & m & ows & w2 & acf & oo & bnds & cs & mx & _ & _ & _ & Hbnds & _
        & _ & _ & Hb & _).
  apply gen_optimize_run in Hrun
    as (args & v & Hcall & _ & Hab & Hq & _ & _ & Hones & _).
  apply Hopt in Hcall as [Hlen Hin].
  apply torch_ones_ok in Hones as [Hn Hones].
  rewrite Hab, Hb, (transpose_bounds_zip _ _ Hbnds) in Hin.
  rewrite Hq in Hlen. rewrite Hones.
  split_and!; try done.
  - apply length_replicate.
  - apply Forall_replicate. done.
Qed.

Lemma demo_optimizer_respects_bounds : optimizer_respects_bounds (H := demo).
Proof.
  intros seed args X v. simpl. unfold demo_optimize.
  destruct (Z.ltb (opt_q args) 0); [discriminate |].
  destruct (forallb box_ok _) eqn:Hbox; [| discriminate].
  intros [= <- _]. split; [apply length_replicate |].
  apply Forall_replicate.
  induction (zip (fst (opt_bounds args)) (snd (opt_bounds args))) as [|lh l IH];
    simpl in *; [constructor |].
  apply andb_prop in Hbox as [Hlh Hl].
  apply andb_prop in Hlh as [Hlo Hhi].
  constructor; [done | by apply IH].
Qed.

Lemma gen_batch_shape_witness :
  ∃ r w',
    gen (H := demo) demo_self 3 demo_ssd (demo_cfg [1%float] (Some demo_opts))
      demo_world = (Ok r, w')
    ∧ length (points r) = Z.to_nat 3
    ∧ Forall (in_bounds (bounds demo_ssd)) (points r)
    ∧ weights r = replicate (Z.to_nat 3) 1%float.
Proof.
  eexists _, _. split; [vm_compute; reflexivity |].
  refine (let P := gen_batch_shape (H := demo) demo_self 3 demo_ssd
                     (demo_cfg [1%float] (Some demo_opts)) demo_world _ _
                     demo_optimizer_respects_bounds _ in
          conj (proj1 (proj2 (proj2 P)))
            (conj (proj1 (proj2 (proj2 (proj2 P))))
               (proj1 (proj2 (proj2 (proj2 (proj2 (proj2 P)))))))).
  vm_compute; reflexivity.
Defined.

(** * Further properties of the type-check helpers *)

Lemma checked_cast_list_from_spec (typ : pyclass) (l acc : list value) :
  (Forall (λ v, isinstance v typ = true) l →
   TypeUtils.checked_cast_list_from typ l acc = Ok (acc ++ l)%list)
  ∧ (∀ l', TypeUtils.checked_cast_list_from typ l acc = Ok l' →
           l' = (acc ++ l)%list ∧ Forall (λ v, isinstance v typ = true) l)
  ∧ (∀ e, TypeUtils.checked_cast_list_from typ l acc = Err e →
          ∃ pre x post,
            l = (pre ++ x :: post)%list
            ∧ Forall (λ v, isinstance v typ = true) pre
            ∧ isinstance x typ = false
            ∧ e = ValueError (NotOfType typ x)).
Proof.
  revert acc. induction l as [|v l IH]; intros acc; simpl.
  - split_and!.
    + intros _. by rewrite app_nil_r.
    + intros l' [= <-]. by rewrite app_nil_r.
    + intros e He. discriminate.
  - unfold TypeUtils.checked_cast.
    destruct (isinstance v typ) eqn:Hv; simpl.
    + destruct (IH (acc ++ [v])%list) as (IH1 & IH2 & IH3).
      rewrite <- app_assoc in IH1, IH2. simpl in IH1, IH2.
      split_and!.
      * intros Hall. apply IH1. by inversion Hall.
      * intros l' Hl'. apply IH2 in Hl' as [-> Hall]. split; [done |].
        by constructor.
      * intros e He. apply IH3 in He as (pre & x & post & -> & Hpre & Hx & ->).
        exists (v :: pre), x, post.
        split_and!; first [done | by constructor].
    + split_and!.
      * intros Hall. inversion Hall; congruence.
      * intros l' Hl'. discriminate.
      * intros e [= <-]. exists [], v, l. split_and!; first [done | constructor].
Qed.

(** X1: [checked_cast_list] returns a list equal to its argument exactly when
    every item is an instance of the type; otherwise it raises the
    [ValueError] of the first item that is not. *)
Theorem checked_cast_list_identity_or_first_failure (typ : pyclass) (l : list value) :
  (TypeUtils.checked_cast_list typ l = Ok l
   ↔ Forall (λ v, isinstance v typ = true) l)
  ∧ (∀ l', TypeUtils.checked_cast_list typ l = Ok l' → l' = l)
  ∧ (∀ e, TypeUtils.checked_cast_list typ l = Err e →
          ∃ pre x post,
            l = (pre ++ x :: post)%list
            ∧ Forall (λ v, isinstance v typ = true) pre
            ∧ isinstance x typ = false
            ∧ e = ValueError (NotOfType typ x)).
Proof.
  unfold TypeUtils.checked_cast_list.
  destruct (checked_cast_list_from_spec typ l []) as (H1 & H2 & H3).
  split_and!.
  - split; [intros Hok; by apply H2 in Hok as [_ ?] | apply H1].
  - intros l' Hl'. by apply H2 in Hl' as [-> _].
  - apply H3.
Qed.

Lemma setitem_fresh (d : list (key * value)) (k : key) (v : value) :
  k ∉ map fst d → TypeUtils.setitem d k v = (d ++ [(k, v)])%list.
Proof.
  induction d as [|[k' v'] d IH]; simpl; [done |].
  intros Hk. apply not_elem_of_cons in Hk as [Hne Hk].
  destruct (decide (k' = k)); [congruence |]. by rewrite IH.
Qed.

Lemma checked_cast_dict_from_ok (key_typ value_typ : pyclass)
    (items acc : list (key * value)) :
  NoDup (map fst (acc ++ items)%list) →
  (Forall (item_ok key_typ value_typ) items →
   TypeUtils.checked_cast_dict_from key_typ value_typ items acc
   = Ok (acc ++ items)%list)
  ∧ (∀ d', TypeUtils.checked_cast_dict_from key_typ value_typ items acc = Ok d' →
           d' = (acc ++ items)%list ∧ Forall (item_ok key_typ value_typ) items).
Proof.
  revert acc. induction items as [|[k v] items IH]; intros acc Hnd; simpl.
  - rewrite app_nil_r. split; [done |]. intros d' [= <-]. done.
  - assert (Hfresh : k ∉ map fst acc).
    { rewrite map_app in Hnd. simpl in Hnd.
      apply NoDup_app in Hnd as (_ & Hdisj & _).
      intros Hin. apply (Hdisj k Hin). apply elem_of_cons. by left. }
    destruct (IH (acc ++ [(k, v)])%list) as [IH1 IH2].
    { by rewrite <- app_assoc. }
    rewrite <- app_assoc in IH1, IH2. simpl in IH1, IH2.
    unfold TypeUtils.checked_cast.
    destruct (isinstance v value_typ) eqn:Hv; simpl.
    + destruct (isinstance (TypeUtils.value_of_key k) key_typ) eqn:Hk; simpl.
      * rewrite (setitem_fresh acc k v Hfresh). split.
        -- intros Hall. apply IH1. by inversion Hall.
        -- intros d' Hd'. apply IH2 in Hd' as [-> Hall]. split; [done |].
           by constructor.
      * split; [| discriminate].
        intros Hall. inversion Hall as [|? ? [_ Hk'] ?]. simpl in Hk'. congruence.
    + split; [| discriminate].
      intros Hall. inversion Hall as [|? ? [Hv' _] ?]. simpl in Hv'. congruence.
Qed.

(** X2: on a dictionary (its keys are pairwise distinct), [checked_cast_dict]
    returns a dictionary with the same items in the same order exactly when
    every value is an instance of the value type and every key an instance
    of the key type. *)
Theorem checked_cast_dict_identity (key_typ value_typ : pyclass)
    (d : list (key * value)) :
  NoDup (map fst d) →
  (TypeUtils.checked_cast_dict key_typ value_typ d = Ok d
   ↔ Forall (item_ok key_typ value_typ) d)
  ∧ (∀ d', TypeUtils.checked_cast_dict key_typ value_typ d = Ok d' → d' = d).
Proof.
  intros Hnd. unfold TypeUtils.checked_cast_dict.
  destruct (checked_cast_dict_from_ok key_typ value_typ d [] Hnd) as [H1 H2].
  split.
  - split; [intros Hok; by apply H2 in Hok as [_ ?] | apply H1].
  - intros d' Hd'. by apply H2 in Hd' as [-> _].
Qed.

Lemma checked_cast_dict_identity_witness :
  NoDup (map fst [(KStr "maxiter", VInt 200); (KStr "batch_limit", VInt 8)])
  ∧ TypeUtils.checked_cast_dict CStr CInt
      [(KStr "maxiter", VInt 200); (KStr "batch_limit", VInt 8)]
    = Ok [(KStr "maxiter", VInt 200); (KStr "batch_limit", VInt 8)].
Proof.
  assert (Hnd : NoDup (map fst [(KStr "maxiter", VInt 200);
                                (KStr "batch_limit", VInt 8)])).
  { apply NoDup_cons. split; [| apply NoDup_singleton].
    intros Hin. apply list_elem_of_singleton in Hin. discriminate. }
  split; [exact Hnd |].
  apply (proj1 (checked_cast_dict_identity CStr CInt _ Hnd)).
  repeat constructor.
Defined.

Lemma checked_cast_dict_from_err (key_typ value_typ : pyclass)
    (items acc : list (key * value)) (e : exn) :
  TypeUtils.checked_cast_dict_from key_typ value_typ items acc = Err e →
  ∃ pre k v post,
    items = (pre ++ (k, v) :: post)%list
    ∧ Forall (item_ok key_typ value_typ) pre
    ∧ ((isinstance v value_typ = false ∧ e = ValueError (NotOfType value_typ v))
       ∨ (isinstance v value_typ = true
          ∧ isinstance (TypeUtils.value_of_key k) key_typ = false
          ∧ e = ValueError (NotOfType key_typ (TypeUtils.value_of_key k)))).
Proof.
  revert acc. induction items as [|[k v] items IH]; intros acc; simpl;
    [discriminate |].
  unfold TypeUtils.checked_cast.
  destruct (isinstance v value_typ) eqn:Hv; simpl.
  - destruct (isinstance (TypeUtils.value_of_key k) key_typ) eqn:Hk; simpl.
    + intros He. apply IH in He as (pre & k' & v' & post & -> & Hpre & Hcase).
      exists ((k, v) :: pre), k', v', post.
      split_and!; [done | constructor; [by split | done] | done].
    + intros [= <-]. exists [], k, v, items.
      split_and!; [done | constructor | by right].
  - intros [= <-]. exists [], k, v, items.
    split_and!; [done | constructor | by left].
Qed.

(** X3: when [checked_cast_dict] raises, the error is the [ValueError] of the
    first item, in iteration order, that fails a check; within that item the
    value is checked before the key, so a bad value is reported even when the
    key is bad too. *)
Theorem checked_cast_dict_first_failure (key_typ value_typ : pyclass)
    (d : list (key * value)) (e : exn) :
  TypeUtils.checked_cast_dict key_typ value_typ d = Err e →
  ∃ pre k v post,
    d = (pre ++ (k, v) :: post)%list
    ∧ Forall (item_ok key_typ value_typ) pre
    ∧ ((isinstance v value_typ = false ∧ e = ValueError (NotOfType value_typ v))
       ∨ (isinstance v value_typ = true
          ∧ isinstance (TypeUtils.value_of_key k) key_typ = false
          ∧ e = ValueError (NotOfType key_typ (TypeUtils.value_of_key k)))).
Proof. apply checked_cast_dict_from_err. Qed.

Lemma checked_cast_dict_first_failure_witness :
  TypeUtils.checked_cast_dict CStr CInt
    [(KStr "maxiter", VInt 200); (KInt 3, VStr "x"); (KStr "m", VNone)]
  = Err (ValueError (NotOfType CInt (VStr "x")))
  ∧ ∃ pre k v post,
      [(KStr "maxiter", VInt 200); (KInt 3, VStr "x"); (KStr "m", VNone)]
      = (pre ++ (k, v) :: post)%list
      ∧ Forall (item_ok CStr CInt) pre
      ∧ ((isinstance v CInt = false
          ∧ ValueError (NotOfType CInt (VStr "x")) = ValueError (NotOfType CInt v))
         ∨ (isinstance v CInt = true
            ∧ isinstance (TypeUtils.value_of_key k) CStr = false
            ∧ ValueError (NotOfType CInt (VStr "x"))
              = ValueError (NotOfType CStr (TypeUtils.value_of_key k)))).
Proof.
  split; [reflexivity |].
  exact (checked_cast_dict_first_failure CStr CInt
           [(KStr "maxiter", VInt 200); (KInt 3, VStr "x"); (KStr "m", VNone)]
           (ValueError (NotOfType CInt (VStr "x"))) eq_refl).
Defined.

(** X4: [checked_cast_optional] lets [None] through whatever the type, and
    treats every other value as [checked_cast] does; it raises only for a
    value that is neither [None] nor an instance of the type. *)
Theorem checked_cast_optional_none_or_instance (typ : pyclass) (val : value) :
  (TypeUtils.checked_cast_optional typ val = Ok val
   ↔ val = VNone ∨ isinstance val typ = true)
  ∧ (∀ r, TypeUtils.checked_cast_optional typ val = Ok r → r = val)
  ∧ (∀ e, TypeUtils.checked_cast_optional typ val = Err e →
          val ≠ VNone ∧ isinstance val typ = false
          ∧ e = ValueError (NotOfType typ val))
  ∧ (val ≠ VNone →
     TypeUtils.checked_cast_optional typ val = TypeUtils.checked_cast typ val None)
  ∧ TypeUtils.checked_cast_optional CInt VNone = Ok VNone
  ∧ TypeUtils.checked_cast CInt VNone None = Err (ValueError (NotOfType CInt VNone)).
Proof.
  unfold TypeUtils.checked_cast_optional, TypeUtils.checked_cast.
  split_and!; try reflexivity.
  - destruct val; simpl; try (split; [by left | done]);
      destruct (isinstance _ typ) eqn:Hi; simpl;
      (split; [intros; first [discriminate | by right] | intros [? | ?]; congruence]).
  - intros r. destruct val; simpl; try congruence;
      destruct (isinstance _ typ); simpl; congruence.
  - intros e. destruct val; simpl; try discriminate;
      destruct (isinstance _ typ) eqn:Hi; simpl; try discriminate;
      intros [= <-]; done.
  - intros Hn. destruct val; simpl; congruence.
Qed.

Lemma isinstance_any_spec (val : value) (typ : list pyclass) :
  TypeUtils.isinstance_any val typ = true ↔ ∃ t, t ∈ typ ∧ isinstance val t = true.
Proof.
  unfold TypeUtils.isinstance_any. rewrite existsb_exists.
  split; intros (t & Ht & Hi); exists t; (split; [| done]);
    by apply list_elem_of_In.
Qed.

(** X5: [checked_cast_to_tuple] returns the value unchanged exactly when it is
    an instance of one of the classes of the tuple; with the empty tuple it
    always raises; and its error message does not depend on the tuple (it
    formats the builtin [type]), so two tuples that both reject a value raise
    the same error. *)
Theorem checked_cast_to_tuple_any (repr : value → string) (typ : list pyclass)
    (val : value) :
  (TypeUtils.checked_cast_to_tuple repr typ val = Ok val
   ↔ ∃ t, t ∈ typ ∧ isinstance val t = true)
  ∧ (∀ r, TypeUtils.checked_cast_to_tuple repr typ val = Ok r → r = val)
  ∧ (∃ m, TypeUtils.checked_cast_to_tuple repr [] val = Err (ValueError (Text m)))
  ∧ (∀ typ',
       is_ok (TypeUtils.checked_cast_to_tuple repr typ val) = false →
       is_ok (TypeUtils.checked_cast_to_tuple repr typ' val) = false →
       TypeUtils.checked_cast_to_tuple repr typ val
       = TypeUtils.checked_cast_to_tuple repr typ' val)
  ∧ (∀ t, is_ok (TypeUtils.checked_cast_to_tuple repr [t] val)
          = is_ok (TypeUtils.checked_cast t val None)).
Proof.
  unfold TypeUtils.checked_cast_to_tuple. split_and!.
  - rewrite <- isinstance_any_spec.
    destruct (TypeUtils.isinstance_any val typ); simpl; split; congruence.
  - intros r. destruct (TypeUtils.isinstance_any val typ); simpl; congruence.
  - simpl. eauto.
  - intros typ'.
    destruct (TypeUtils.isinstance_any val typ),
      (TypeUtils.isinstance_any val typ'); simpl; congruence.
  - intros t. unfold TypeUtils.checked_cast, TypeUtils.isinstance_any. simpl.
    rewrite orb_false_r. by destruct (isinstance val t).
Qed.

(** * Further properties of candidate generation *)

Lemma gen_run `{collaborators} (self : MaxValueEntropySearch) (n : Z)
    (ssd : SearchSpaceDigest) (cfg : TorchOptConfig) (w : world)
    (r : TorchGenResults) (w' : world) :
  gen self n ssd cfg w = (Ok r, w') →
  gen_validate cfg = Ok tt
  ∧ ∃ b w1, gen_build self ssd cfg w = (Ok b, w1)
            ∧ gen_optimize n cfg b w1 = (Ok r, w').
Proof.
  intros Hrun. unfold gen in Hrun.
  apply bind_ok in Hrun as ([] & w0 & Hval & Hrun).
  apply lift_ok in Hval as [Hval ->].
  apply bind_ok in Hrun as (b & w1 & Hb & Hrun). eauto.
Qed.

Lemma gen_optimize_call `{collaborators} (n : Z) (cfg : TorchOptConfig)
    (b : gen_locals) (w : world) (r : TorchGenResults) (w' : world) :
  gen_optimize n cfg b w = (Ok r, w') →
  ∃ opts v,
    dict_update default_opt_options
      (dict_get (optimizer_options b) "options" (VDict ∅)) = Ok opts
    ∧ optimize_acqf (rng w)
        {| opt_acq_function := acq_function b;
           opt_bounds := bounds_ b;
           opt_q := n;
           opt_fixed_features := fixed_features cfg;
           opt_post_processing_func := get_rounding_func (rounding_func cfg);
           opt_num_restarts := num_restarts b;
           opt_raw_samples := raw_samples b;
           opt_options := opts;
           opt_sequential := true |} = Ok (points r, v)
    ∧ w' = {| heap := heap w; rng := S (rng w);
              calls := CallOptimizer
                         {| opt_acq_function := acq_function b;
                            opt_bounds := bounds_ b;
                            opt_q := n;
                            opt_fixed_features := fixed_features cfg;
                            opt_post_processing_func :=
                              get_rounding_func (rounding_func cfg);
                            opt_num_restarts := num_restarts b;
                            opt_raw_samples := raw_samples b;
                            opt_options := opts;
                            opt_sequential := true |} :: calls w |}.
Proof.
  intros Hrun. unfold gen_optimize, call_optimize_acqf in Hrun.
  run_ok Hrun. simpl in *.
  match goal with p : (list (list float) * list float)%type |- _ =>
    destruct p as [X v] end.
  eexists _, v. split_and!; try eassumption; reflexivity.
Qed.

Lemma transpose_bounds_ok (b : list (float * float)) (bnds : list float * list float) :
  transpose_bounds b = Ok bnds → bnds = (map fst b, map snd b) ∧ b ≠ [].
Proof. destruct b; [discriminate |]. by intros [= <-]. Qed.

(** X7: a successful call of [gen] makes its collaborator calls in a fixed
    order (the log is newest first): model subsetting when it is enabled,
    then exactly one draw of the candidate set, of the size given by
    [candidate_size] (default 1000) and of the dimension of the search space,
    then exactly one call of the optimizer. *)
Theorem gen_call_sequence `{collaborators} (self : MaxValueEntropySearch) (n : Z)
    (ssd : SearchSpaceDigest) (cfg : TorchOptConfig) (w : world)
    (r : TorchGenResults) (w' : world) :
  gen self n ssd cfg w = (Ok r, w') →
  ∃ acf args,
    as_dict (dict_get (gen_options cfg) "acquisition_function_kwargs" (VDict ∅))
    = Ok acf
    ∧ new_calls w w'
      = CallOptimizer args
          :: CallSampler (dict_get acf "candidate_size" (VInt 1000))
               (length (bounds ssd))
          :: (if truthy (dict_get (gen_options cfg) "subset_model" (VBool true))
              then [CallSubsetModel (model self)] else []).
Proof.
  intros Hrun. apply gen_run in Hrun as (_ & b & w1 & Hb & Hopt).
  apply gen_build_run in Hb
    as (Xpo & m & ows & w2 & acf & oo & bnds & cs & mx & Hsub & Hacf & _ & Hbnds
        & _ & _ & _ & _ & _ & _ & _ & ->).
  apply gen_optimize_call in Hopt as (opts & v & _ & _ & ->).
  apply transpose_bounds_ok in Hbnds as [-> _]. simpl. rewrite length_map.
  eexists acf, _. split; [done |]. unfold new_calls. simpl calls.
  apply gen_subset_run in Hsub
    as [(-> & _ & _ & ->) | (-> & d & h' & _ & _ & _ & ->)]; simpl calls.
  - apply (take_new_calls [_; _] (calls w)).
  - apply (take_new_calls [_; _; _] (calls w)).
Qed.

Lemma gen_call_sequence_witness :
  ∃ r w' acf args,
    gen (H := demo) demo_self 3 demo_ssd (demo_cfg [1%float] (Some demo_opts))
      demo_world = (Ok r, w')
    ∧ as_dict (dict_get (gen_options (demo_cfg [1%float] (Some demo_opts)))
                 "acquisition_function_kwargs" (VDict ∅)) = Ok acf
    ∧ new_calls demo_world w'
      = CallOptimizer args
          :: CallSampler (dict_get acf "candidate_size" (VInt 1000))
               (length (bounds demo_ssd))
          :: (if truthy (dict_get (gen_options (demo_cfg [1%float] (Some demo_opts)))
                           "subset_model" (VBool true))
              then [CallSubsetModel (model demo_self)] else []).
Proof.
  eexists _, _.
  assert (Hrun : gen (H := demo) demo_self 3 demo_ssd
                   (demo_cfg [1%float] (Some demo_opts)) demo_world
                 = (Ok _, _)) by (vm_compute; reflexivity).
  destruct (gen_call_sequence (H := demo) demo_self 3 demo_ssd
              (demo_cfg [1%float] (Some demo_opts)) demo_world _ _ Hrun)
    as (acf & args & Hacf & Hcalls).
  exists acf, args. split; [exact Hrun |]. split; [exact Hacf | exact Hcalls].
Defined.

(** X8: in a successful call of [gen] for [n] points, the optimizer is asked
    for [q = n] points, sequentially, within the transposed bounds of the
    search space, with the configuration's fixed features and the rounding
    function obtained from [get_rounding_func]; the points of the result are
    the candidates the optimizer returned, unchanged. *)
Theorem gen_optimizer_arguments `{collaborators} (self : MaxValueEntropySearch)
    (n : Z) (ssd : SearchSpaceDigest) (cfg : TorchOptConfig) (w : world)
    (r : TorchGenResults) (w' : world) :
  gen self n ssd cfg w = (Ok r, w') →
  ∃ args seed v,
    head (calls w') = Some (CallOptimizer args)
    ∧ optimize_acqf seed args = Ok (points r, v)
    ∧ opt_q args = n
    ∧ opt_sequential args = true
    ∧ opt_bounds args = (map fst (bounds ssd), map snd (bounds ssd))
    ∧ opt_fixed_features args = fixed_features cfg
    ∧ opt_post_processing_func args = get_rounding_func (rounding_func cfg)
    ∧ ∃ b w1, gen_build self ssd cfg w = (Ok b, w1)
              ∧ opt_acq_function args = acq_function b.
Proof.
  intros Hrun. apply gen_run in Hrun as (_ & b & w1 & Hb & Hopt).
  apply gen_optimize_call in Hopt as (opts & v & _ & Hcall & ->).
  pose proof (gen_build_run _ _ _ _ _ _ Hb)
    as (Xpo & m & ows & w2 & acf & oo & bnds & cs & mx & _ & _ & _ & Hbnds
        & _ & _ & _ & Hbb & _).
  apply transpose_bounds_ok in Hbnds as [-> _].
  eexists _, _, v. split; [reflexivity |]. split; [exact Hcall |].
  simpl. split_and!; try done. eauto.
Qed.

Lemma gen_optimizer_arguments_witness :
  ∃ r w' args,
    gen (H := demo) demo_self 3 demo_ssd (demo_cfg [1%float] (Some demo_opts))
      demo_world = (Ok r, w')
    ∧ head (calls w') = Some (CallOptimizer args)
    ∧ opt_q args = 3
    ∧ opt_sequential args = true.
Proof.
  eexists _, _.
  assert (Hrun : gen (H := demo) demo_self 3 demo_ssd
                   (demo_cfg [1%float] (Some demo_opts)) demo_world
                 = (Ok _, _)) by (vm_compute; reflexivity).
  destruct (gen_optimizer_arguments (H := demo) demo_self 3 demo_ssd
              (demo_cfg [1%float] (Some demo_opts)) demo_world _ _ Hrun)
    as (args & seed & v & Hhead & _ & Hq & Hseq & _).
  exists args. split; [exact Hrun |]. split; [exact Hhead |].
  split; [exact Hq | exact Hseq].
Defined.

Lemma dict_update_defaults_lookup (u opts : gmap key value) (k : key) :
  dict_update default_opt_options (VDict u) = Ok opts →
  opts !! k = match u !! k with
              | Some v => Some v
              | None => default_opt_options !! k
              end.
Proof.
  intros [= <-]. destruct (u !! k) as [v|] eqn:Hk.
  - by apply lookup_union_Some_l.
  - by apply lookup_union_r.
Qed.

(** X9: the entries of [optimizer_kwargs["options"]] override the solver
    defaults ([batch_limit] 8, [maxiter] 200, [method] L-BFGS-B,
    [nonnegative] False) key by key: the options the optimizer receives hold
    the supplied value for every supplied key and the default for every
    other key. *)
Theorem gen_solver_options_override `{collaborators}
    (self : MaxValueEntropySearch) (n : Z) (ssd : SearchSpaceDigest)
    (cfg : TorchOptConfig) (w : world) (r : TorchGenResults) (w' : world)
    (oo u : gmap key value) :
  gen self n ssd cfg w = (Ok r, w') →
  dict_get (gen_options cfg) "optimizer_kwargs" (VDict ∅) = VDict oo →
  dict_get oo "options" (VDict ∅) = VDict u →
  ∃ args,
    head (calls w') = Some (CallOptimizer args)
    ∧ (∀ k, opt_options args !! k
            = match u !! k with
              | Some v => Some v
              | None => default_opt_options !! k
              end)
    ∧ (u !! KStr "maxiter" = None →
       opt_options args !! KStr "maxiter" = Some (VInt 200)).
Proof.
  intros Hrun Hoo Hu. apply gen_run in Hrun as (_ & b & w1 & Hb & Hopt).
  apply gen_optimize_call in Hopt as (opts & v & Hopts & _ & ->).
  apply gen_build_run in Hb
    as (Xpo & m & ows & w2 & acf & oo' & bnds & cs & mx & _ & _ & Hoo' & _
        & _ & _ & _ & _ & Hbo & _).
  rewrite Hoo in Hoo'. injection Hoo' as <-.
  rewrite Hbo, Hu in Hopts.
  eexists. split; [reflexivity |]. simpl. split.
  - intros k. by apply dict_update_defaults_lookup.
  - intros Hmax. rewrite (dict_update_defaults_lookup _ _ _ Hopts), Hmax.
    reflexivity.
Qed.

Lemma gen_solver_options_override_witness :
  ∃ r w' args,
    gen (H := demo) demo_self 2 demo_ssd (demo_cfg [1%float] (Some solver_opts))
      demo_world = (Ok r, w')
    ∧ head (calls w') = Some (CallOptimizer args)
    ∧ opt_options args !! KStr "batch_limit" = Some (VInt 2)
    ∧ opt_options args !! KStr "maxiter" = Some (VInt 200).
Proof.
  eexists _, _.
  assert (Hrun : gen (H := demo) demo_self 2 demo_ssd
                   (demo_cfg [1%float] (Some solver_opts)) demo_world
                 = (Ok _, _)) by (vm_compute; reflexivity).
  destruct (gen_solver_options_override (H := demo) demo_self 2 demo_ssd
              (demo_cfg [1%float] (Some solver_opts)) demo_world _ _
              {[ KStr "options" :=
                   VDict (<[KStr "batch_limit" := VInt 2]>
                            {[ KStr "disp" := VBool true ]}) ]}
              (<[KStr "batch_limit" := VInt 2]> {[ KStr "disp" := VBool true ]})
              Hrun eq_refl eq_refl)
    as (args & Hhead & Hlookup & Hmax).
  exists args. split; [exact Hrun |]. split; [exact Hhead |].
  split; [exact (Hlookup (KStr "batch_limit")) | exact (Hmax eq_refl)].
Defined.

(** X10: the sampling sizes are read from [acquisition_function_kwargs] and
    the restart counts from [optimizer_kwargs]: the acquisition function is
    built with [num_fantasies] (default 16), [num_mv_samples] (default 10)
    and [num_y_samples] (default 128) of the former, over the model and with
    the pending points that the earlier steps produced, and the optimizer
    receives [num_restarts] (default 40) and [raw_samples] (default 1024) of
    the latter.  Either entry, when present, must be a dictionary. *)
Theorem gen_reads_nested_sampling_options `{collaborators}
    (self : MaxValueEntropySearch) (ssd : SearchSpaceDigest)
    (cfg : TorchOptConfig) (w : world) (b : gen_locals) (w' : world) :
  gen_build self ssd cfg w = (Ok b, w') →
  ∃ acf oo,
    dict_get (gen_options cfg) "acquisition_function_kwargs" (VDict ∅) = VDict acf
    ∧ dict_get (gen_options cfg) "optimizer_kwargs" (VDict ∅) = VDict oo
    ∧ mes_num_fantasies (acqf_args (acq_function b))
      = dict_get acf "num_fantasies" (VInt 16)
    ∧ mes_num_mv_samples (acqf_args (acq_function b))
      = dict_get acf "num_mv_samples" (VInt 10)
    ∧ mes_num_y_samples (acqf_args (acq_function b))
      = dict_get acf "num_y_samples" (VInt 128)
    ∧ num_restarts b = dict_get oo "num_restarts" (VInt 40)
    ∧ raw_samples b = dict_get oo "raw_samples" (VInt 1024).
Proof.
  intros Hrun.
  apply gen_build_run in Hrun
    as (Xpo & m & ows & w1 & acf & oo & bnds & cs & mx & _ & Hacf & Hoo & _ & _
        & _ & Hacq & _ & _ & Hnr & Hrs & _).
  apply instantiate_MES_args in Hacq.
  exists acf, oo. rewrite Hacq. simpl.
  unfold as_dict in Hacf, Hoo.
  repeat case_match; simplify_eq. done.
Qed.

Lemma gen_reads_nested_sampling_options_witness :
  ∃ b w' acf oo,
    gen_build (H := demo) demo_self demo_ssd
      (demo_cfg [1%float] (Some demo_opts)) demo_world = (Ok b, w')
    ∧ dict_get (gen_options (demo_cfg [1%float] (Some demo_opts)))
        "acquisition_function_kwargs" (VDict ∅) = VDict acf
    ∧ dict_get (gen_options (demo_cfg [1%float] (Some demo_opts)))
        "optimizer_kwargs" (VDict ∅) = VDict oo
    ∧ mes_num_fantasies (acqf_args (acq_function b))
      = dict_get acf "num_fantasies" (VInt 16).
Proof.
  eexists _, _.
  assert (Hrun : gen_build (H := demo) demo_self demo_ssd
                   (demo_cfg [1%float] (Some demo_opts)) demo_world
                 = (Ok _, _)) by (vm_compute; reflexivity).
  destruct (gen_reads_nested_sampling_options (H := demo) demo_self demo_ssd
              (demo_cfg [1%float] (Some demo_opts)) demo_world _ _ Hrun)
    as (acf & oo & Hacf & Hoo & Hnf & _).
  exists acf, oo. split; [exact Hrun |].
  split; [exact Hacf |]. split; [exact Hoo | exact Hnf].
Defined.

(** X11: with no options ([model_gen_options] absent or empty), a successful
    call of [gen] subsets the model, draws 1000 candidate points, builds the
    acquisition function with 16 fantasies, 10 max-value samples and 128
    outcome samples, and calls the optimizer with 40 restarts, 1024 raw
    samples and exactly the default solver options. *)
Theorem gen_default_options `{collaborators} (self : MaxValueEntropySearch)
    (n : Z) (ssd : SearchSpaceDigest) (cfg : TorchOptConfig) (w : world)
    (r : TorchGenResults) (w' : world) :
  gen_options cfg = ∅ →
  gen self n ssd cfg w = (Ok r, w') →
  ∃ args,
    new_calls w w'
    = [CallOptimizer args; CallSampler (VInt 1000) (length (bounds ssd));
       CallSubsetModel (model self)]
    ∧ mes_num_fantasies (acqf_args (opt_acq_function args)) = VInt 16
    ∧ mes_num_mv_samples (acqf_args (opt_acq_function args)) = VInt 10
    ∧ mes_num_y_samples (acqf_args (opt_acq_function args)) = VInt 128
    ∧ opt_num_restarts args = VInt 40
    ∧ opt_raw_samples args = VInt 1024
    ∧ opt_options args = default_opt_options.
Proof.
  intros Hopts Hrun.
  apply gen_run in Hrun as (_ & b & w1 & Hb & Hopt).
  pose proof (gen_build_run _ _ _ _ _ _ Hb)
    as (Xpo & m & ows & w2 & acf & oo & bnds & cs & mx & Hsub & Hacf & Hoo
        & Hbnds & _ & _ & Hacq & _ & Hbo & Hnr & Hrs & Hw1).
  rewrite Hopts in Hacf, Hoo.
  injection Hacf as <-. injection Hoo as <-.
  apply gen_optimize_call in Hopt as (opts & v & Hupd & _ & ->).
  rewrite Hbo in Hupd. injection Hupd as <-.
  apply transpose_bounds_ok in Hbnds as [-> _].
  apply instantiate_MES_args in Hacq.
  apply gen_subset_run in Hsub
    as [(Hoff & _) | (_ & d & h' & _ & _ & _ & ->)];
    [rewrite Hopts in Hoff; discriminate |].
  eexists. split.
  - unfold new_calls. rewrite Hw1. simpl. rewrite length_map.
    apply (take_new_calls [_; _; _] (calls w)).
  - simpl. rewrite Hacq, Hnr, Hrs. simpl.
    split_and!; reflexivity.
Qed.

Lemma gen_default_options_witness :
  ∃ r w' args,
    gen_options (demo_cfg [1%float] None) = ∅
    ∧ gen (H := demo) demo_self 1 demo_ssd (demo_cfg [1%float] None) demo_world
      = (Ok r, w')
    ∧ head (new_calls demo_world w') = Some (CallOptimizer args)
    ∧ opt_num_restarts args = VInt 40
    ∧ opt_options args = default_opt_options.
Proof.
  eexists _, _.
  assert (Hrun : gen (H := demo) demo_self 1 demo_ssd
                   (demo_cfg [1%float] None) demo_world
                 = (Ok _, _)) by (vm_compute; reflexivity).
  destruct (gen_default_options (H := demo) demo_self 1 demo_ssd
              (demo_cfg [1%float] None) demo_world _ _ eq_refl Hrun)
    as (args & Hcalls & _ & _ & _ & Hnr & _ & Hoptions).
  exists args. split; [reflexivity |]. split; [exact Hrun |].
  split; [by rewrite Hcalls |]. split; [exact Hnr | exact Hoptions].
Defined.

Lemma gen_target_fidelities_empty_iff (ssd : SearchSpaceDigest) :
  gen_target_fidelities ssd = ∅
  ↔ ∀ f, f ∈ fidelity_features ssd → target_values ssd !! f = None.
Proof.
  unfold gen_target_fidelities. rewrite map_empty. split.
  - intros Hnone f Hf. specialize (Hnone f).
    apply map_lookup_filter_None in Hnone as [Hn | Hn]; [done |].
    destruct (target_values ssd !! f) as [x|] eqn:Hx; [| done].
    exfalso. by apply (Hn x).
  - intros Hall i. apply map_lookup_filter_None.
    destruct (decide (i ∈ fidelity_features ssd)) as [Hi | Hi].
    + left. by apply Hall.
    + right. intros x _. done.
Qed.

(** X12: [gen] takes the cost-aware multi-fidelity path exactly when some
    fidelity feature has a target value.  A fidelity feature that has no
    entry in the target values is ignored, and when none has one the
    standard acquisition function is built although fidelity features are
    declared. *)
Theorem gen_cost_aware_iff_target_fidelity `{collaborators}
    (self : MaxValueEntropySearch) (ssd : SearchSpaceDigest)
    (cfg : TorchOptConfig) (w : world) (b : gen_locals) (w' : world) :
  gen_build self ssd cfg w = (Ok b, w') →
  (is_cost_aware (acq_function b) = true
   ↔ ∃ f, f ∈ fidelity_features ssd ∧ is_Some (target_values ssd !! f))
  ∧ ((∀ f, f ∈ fidelity_features ssd → target_values ssd !! f = None) →
     ∃ a, acq_function b = qMaxValueEntropy a)
  ∧ (∀ a u p e,
       acq_function b = qMultiFidelityMaxValueEntropy a u p e →
       ∀ k v, project_target_fidelities p !! k = Some v
              ↔ target_values ssd !! k = Some v ∧ k ∈ fidelity_features ssd).
Proof.
  intros Hrun.
  apply gen_build_run in Hrun
    as (Xpo & m & ows & w1 & acf & oo & bnds & cs & mx & _ & _ & _ & _ & _ & _
        & Hacq & _).
  destruct (decide (gen_target_fidelities ssd = ∅)) as [Hempty | Hne].
  - pose proof Hacq as Hacq'. rewrite Hempty in Hacq'.
    apply instantiate_MES_standard in Hacq' as [a ->].
    pose proof (proj1 (gen_target_fidelities_empty_iff ssd) Hempty) as Hall.
    split_and!.
    + split; [discriminate |]. intros (f & Hf & [x Hx]).
      rewrite (Hall f Hf) in Hx. discriminate.
    + eauto.
    + intros ? ? ? ? [=].
  - pose proof Hacq as Hacq'.
    apply instantiate_MES_multi_fidelity in Hacq' as (a & ws & -> & _ & _);
      [| done].
    split_and!.
    + split; [intros _ | done].
      apply map_choose in Hne as (f & x & Hfx).
      unfold gen_target_fidelities in Hfx.
      apply map_lookup_filter_Some in Hfx as [Hx Hf].
      exists f. split; [done | by exists x].
    + intros Hall. exfalso. apply Hne.
      by apply gen_target_fidelities_empty_iff.
    + intros a' u p e [= _ _ <- _] k v. simpl.
      unfold gen_target_fidelities. rewrite map_lookup_filter_Some. done.
Qed.

Lemma gen_cost_aware_iff_target_fidelity_witness :
  ∃ b w' a,
    gen_build (H := demo) demo_self demo_ssd_untargeted
      (demo_cfg [1%float] (Some demo_opts)) demo_world = (Ok b, w')
    ∧ fidelity_features demo_ssd_untargeted = [2]
    ∧ acq_function b = qMaxValueEntropy a.
Proof.
  eexists _, _.
  assert (Hrun : gen_build (H := demo) demo_self demo_ssd_untargeted
                   (demo_cfg [1%float] (Some demo_opts)) demo_world
                 = (Ok _, _)) by (vm_compute; reflexivity).
  destruct (proj1 (proj2 (gen_cost_aware_iff_target_fidelity (H := demo)
                            demo_self demo_ssd_untargeted
                            (demo_cfg [1%float] (Some demo_opts)) demo_world
                            _ _ Hrun)) (λ f _, eq_refl)) as [a Ha].
  exists a. split; [exact Hrun |]. split; [reflexivity | exact Ha].
Defined.

(** X13: an empty vector of objective weights passes validation, but with
    model subsetting disabled no call of [gen] then returns a result: the
    weights reach [objective_weights[0]] as they are, and indexing them
    fails before an acquisition function is built. *)
Theorem gen_empty_weights_no_result `{collaborators}
    (self : MaxValueEntropySearch) (n : Z) (ssd : SearchSpaceDigest)
    (cfg : TorchOptConfig) (w : world) :
  objective_weights cfg = [] →
  truthy (dict_get (gen_options cfg) "subset_model" (VBool true)) = false →
  (∀ b w', gen_build self ssd cfg w ≠ (Ok b, w'))
  ∧ (∀ r w', gen self n ssd cfg w ≠ (Ok r, w'))
  ∧ gen_maximize (objective_weights cfg) = Err IndexError.
Proof.
  intros Hows Hoff.
  assert (Hbuild : ∀ b w', gen_build self ssd cfg w ≠ (Ok b, w')).
  { intros b w' Hb.
    apply gen_build_run in Hb
      as (Xpo & m & ows & w1 & acf & oo & bnds & cs & mx & Hsub & _ & _ & _ & _
          & Hmx & _).
    apply gen_subset_run in Hsub as [(_ & _ & -> & _) | (Hon & _)];
      [| congruence].
    rewrite Hows in Hmx. discriminate. }
  split_and!.
  - exact Hbuild.
  - intros r w' Hrun. apply gen_run in Hrun as (_ & b & w1 & Hb & _).
    by apply (Hbuild b w1).
  - by rewrite Hows.
Qed.

Lemma gen_empty_weights_no_result_witness :
  objective_weights (demo_cfg [] (Some no_subset_opts)) = []
  ∧ gen_validate (demo_cfg [] (Some no_subset_opts)) = Ok tt
  ∧ ∀ r w', gen (H := demo) demo_self 3 demo_ssd
              (demo_cfg [] (Some no_subset_opts)) demo_world ≠ (Ok r, w').
Proof.
  split; [reflexivity |]. split; [reflexivity |].
  exact (proj1 (proj2 (gen_empty_weights_no_result (H := demo) demo_self 3
                         demo_ssd (demo_cfg [] (Some no_subset_opts))
                         demo_world eq_refl eq_refl))).
Defined.

(** X14: outcome constraints and a second objective weight end [gen] at
    once, like linear constraints: the call raises [UnsupportedError] with
    the message of the guard that fired and leaves the world as it was.  The
    constraint guard comes first, so a configuration with constraints and
    several weights gets the constraint message. *)
Theorem gen_guards_fail_fast `{collaborators} (self : MaxValueEntropySearch)
    (n : Z) (ssd : SearchSpaceDigest) (cfg : TorchOptConfig) (w : world) :
  (outcome_constraints cfg ≠ None →
   gen self n ssd cfg w
   = (Err (UnsupportedError
             (Text "Constraints are not yet supported by max-value entropy search!")),
      w))
  ∧ (linear_constraints cfg = None → outcome_constraints cfg = None →
     (1 < length (objective_weights cfg))%nat →
     gen self n ssd cfg w
     = (Err (UnsupportedError
               (Text "Models with multiple outcomes are not yet supported by MES!")),
        w))
  ∧ (linear_constraints cfg ≠ None ∨ outcome_constraints cfg ≠ None →
     gen_validate cfg
     ≠ Err (UnsupportedError
              (Text "Models with multiple outcomes are not yet supported by MES!"))).
Proof.
  split_and!.
  - intros Hoc. apply gen_validate_err. unfold gen_validate.
    destruct (outcome_constraints cfg); [| done].
    by rewrite orb_true_r.
  - intros Hlc Hoc Hlen. apply gen_validate_err. unfold gen_validate.
    rewrite Hlc, Hoc. simpl.
    destruct (Nat.ltb_spec 1 (length (objective_weights cfg))); [done | lia].
  - intros Hc. unfold gen_validate.
    destruct (linear_constraints cfg), (outcome_constraints cfg); simpl;
      try discriminate.
    destruct Hc; congruence.
Qed.

(** ** When the optimizer runs *)

Lemma adds_only_ret (P : call → Prop) {A} (a : A) : adds_only P (ret a).
Proof. intros w r w' [= _ <-]. exists []. split; [done | constructor]. Qed.

Lemma adds_only_lift (P : call → Prop) {A} (x : result A) : adds_only P (lift x).
Proof. intros w r w' [= _ <-]. exists []. split; [done | constructor]. Qed.

Lemma adds_only_next_seed (P : call → Prop) : adds_only P next_seed.
Proof. intros w r w' [= _ <-]. exists []. split; [done | constructor]. Qed.

Lemma adds_only_record_call (P : call → Prop) (c : call) :
  P c → adds_only P (record_call c).
Proof.
  intros Hc w r w' [= _ <-]. exists [c]. split; [done |].
  by repeat constructor.
Qed.

Lemma adds_only_bind (P : call → Prop) {A B} (m : M A) (k : A → M B) :
  adds_only P m → (∀ a, adds_only P (k a)) → adds_only P (bind m k).
Proof.
  intros Hm Hk w r w' Hrun. unfold bind in Hrun.
  destruct (m w) as [[a|e] w1] eqn:Hmw.
  - destruct (Hm _ _ _ Hmw) as (new1 & Hc1 & Hp1).
    destruct (Hk a _ _ _ Hrun) as (new2 & Hc2 & Hp2).
    exists (new2 ++ new1)%list. split.
    + by rewrite Hc2, Hc1, app_assoc.
    + by apply Forall_app.
  - injection Hrun as <- <-. by apply (Hm _ _ _ Hmw).
Qed.

Lemma adds_only_call_subset_model (P : call → Prop) (m : nat) (ow : list float)
    (oc : option (list (list float) * list (list float))) :
  P (CallSubsetModel m) → adds_only P (call_subset_model m ow oc).
Proof.
  intros Hc. unfold call_subset_model.
  apply adds_only_bind; [by apply adds_only_record_call |].
  intros _ w r w' Hrun. exists []. split; [| constructor].
  destruct (subset_model (heap w) m ow oc) as [[d h']|e];
    by injection Hrun as _ <-.
Qed.

Lemma adds_only_gen_build `{collaborators} (self : MaxValueEntropySearch)
    (ssd : SearchSpaceDigest) (cfg : TorchOptConfig) :
  adds_only (λ c, is_optimizer_call c = false) (gen_build self ssd cfg).
Proof.
  unfold gen_build, sample_candidate_set, gen_subset.
  repeat first
    [ apply adds_only_ret
    | apply adds_only_lift
    | apply adds_only_next_seed
    | by apply adds_only_record_call
    | by apply adds_only_call_subset_model
    | apply adds_only_bind; [| intros ?]
    | progress cbv zeta
    | case_match ].
Qed.

(** X15: whatever the outcome of [gen], the optimizer is invoked only for a
    configuration that passed validation and for which the acquisition
    function was built: a call that fails earlier (in validation, in a
    collaborator, on ill-typed options or on a fidelity-weight mismatch)
    never reaches the optimizer. *)
Theorem gen_optimizer_needs_acquisition `{collaborators}
    (self : MaxValueEntropySearch) (n : Z) (ssd : SearchSpaceDigest)
    (cfg : TorchOptConfig) (w : world) (res : result TorchGenResults)
    (w' : world) :
  gen self n ssd cfg w = (res, w') →
  existsb is_optimizer_call (new_calls w w') = true →
  gen_validate cfg = Ok tt
  ∧ ∃ b w1, gen_build self ssd cfg w = (Ok b, w1).
Proof.
  intros Hrun Hcalled. unfold gen, bind, lift in Hrun.
  destruct (gen_validate cfg) as [[]|e] eqn:Hval.
  - split; [done |].
    destruct (gen_build self ssd cfg w) as [[b|e] w1] eqn:Hb; [eauto |].
    injection Hrun as <- <-. exfalso.
    destruct (adds_only_gen_build self ssd cfg _ _ _ Hb) as (new & Hc & Hp).
    unfold new_calls in Hcalled. rewrite Hc, take_new_calls in Hcalled.
    apply existsb_exists in Hcalled as (c & Hin & Hopt).
    apply list_elem_of_In in Hin.
    rewrite Forall_forall in Hp. specialize (Hp c Hin). simpl in Hp. congruence.
  - injection Hrun as <- <-. unfold new_calls in Hcalled.
    rewrite Nat.sub_diag in Hcalled. discriminate.
Qed.

Lemma gen_optimizer_needs_acquisition_witness :
  ∃ res w',
    gen (H := demo) demo_self 3 demo_ssd (demo_cfg [1%float] (Some demo_opts))
      demo_world = (res, w')
    ∧ existsb is_optimizer_call (new_calls demo_world w') = true
    ∧ gen_validate (demo_cfg [1%float] (Some demo_opts)) = Ok tt
    ∧ ∃ b w1, gen_build (H := demo) demo_self demo_ssd
                (demo_cfg [1%float] (Some demo_opts)) demo_world = (Ok b, w1).
Proof.
  eexists _, _.
  assert (Hrun : gen (H := demo) demo_self 3 demo_ssd
                   (demo_cfg [1%float] (Some demo_opts)) demo_world
                 = (_, _)) by (vm_compute; reflexivity).
  split; [exact Hrun |]. split; [reflexivity |].
  exact (gen_optimizer_needs_acquisition (H := demo) demo_self 3 demo_ssd
           (demo_cfg [1%float] (Some demo_opts)) demo_world _ _ Hrun eq_refl).
Defined.

(** * Further properties of [_instantiate_MES] *)

(** X16: without target fidelities ([None] or an empty dictionary)
    [_instantiate_MES] builds the standard acquisition function and never
    looks at the fidelity weights, whatever they are; with target fidelities
    and fidelity weights keyed exactly like them, it builds the
    multi-fidelity one with those weights as given, the cost intercept as
    fixed cost, the target fidelities for projection and the number of trace
    observations for expansion. *)
Theorem instantiate_MES_dispatch (model : nat) (candidate_set : list (list float))
    (num_fantasies num_mv_samples num_y_samples : value)
    (X_pending : option (list (list float))) (maximize : bool)
    (num_trace_observations : value) (fidelity_weights : value)
    (cost_intercept : float) :
  (∀ tf, tf = None ∨ tf = Some ∅ →
     ∃ a, _instantiate_MES model candidate_set num_fantasies num_mv_samples
            num_y_samples X_pending maximize num_trace_observations tf
            fidelity_weights cost_intercept = Ok (qMaxValueEntropy a)
          ∧ mes_maximize a = maximize ∧ mes_model a = model)
  ∧ (∀ tf d, tf ≠ ∅ → dom d = target_keys tf →
       ∃ a, _instantiate_MES model candidate_set num_fantasies num_mv_samples
              num_y_samples X_pending maximize num_trace_observations (Some tf)
              (VDict d) cost_intercept
            = Ok (qMultiFidelityMaxValueEntropy a
                    {| cost_model := {| fidelity_weights := VDict d;
                                        fixed_cost := cost_intercept |} |}
                    {| project_target_fidelities := tf |}
                    {| fidelity_dims := sorted_keys tf;
                       num_trace_obs := num_trace_observations |})
            ∧ mes_maximize a = maximize ∧ mes_model a = model).
Proof.
  split.
  - intros tf [-> | ->]; unfold _instantiate_MES.
    + eexists. split; [reflexivity | done].
    + rewrite bool_decide_eq_true_2 by done. eexists. split; [reflexivity | done].
  - intros tf d Hne Hd. unfold _instantiate_MES.
    rewrite bool_decide_eq_false_2 by done. simpl. rewrite Hd.
    rewrite bool_decide_eq_true_2 by done. simpl.
    eexists. split; [reflexivity | done].
Qed.

Lemma sorted_keys_spec (tf : gmap Z float) :
  Sorted Z.le (sorted_keys tf)
  ∧ NoDup (sorted_keys tf)
  ∧ ∀ k, k ∈ sorted_keys tf ↔ is_Some (tf !! k).
Proof.
  unfold sorted_keys. split_and!.
  - apply (Sorted_merge_sort Z.le).
  - rewrite merge_sort_Permutation. apply NoDup_fst_map_to_list.
  - intros k. rewrite merge_sort_Permutation, list_elem_of_fmap. split.
    + intros ([k' v] & -> & Hin). apply elem_of_map_to_list in Hin. by exists v.
    + intros [v Hv]. exists (k, v). split; [done |].
      by apply elem_of_map_to_list.
Qed.

(** X17: the fidelity dimensions handed to the trace-observation expansion
    of a multi-fidelity acquisition function are the keys of the target
    fidelities in increasing order, each exactly once. *)
Theorem instantiate_MES_fidelity_dims_sorted (model : nat)
    (candidate_set : list (list float))
    (num_fantasies num_mv_samples num_y_samples : value)
    (X_pending : option (list (list float))) (maximize : bool)
    (num_trace_observations : value) (tf : gmap Z float)
    (fidelity_weights : value) (cost_intercept : float)
    (a : mes_args) (u : InverseCostWeightedUtility) (p : project_closure)
    (e : expand_closure) :
  _instantiate_MES model candidate_set num_fantasies num_mv_samples
    num_y_samples X_pending maximize num_trace_observations (Some tf)
    fidelity_weights cost_intercept
  = Ok (qMultiFidelityMaxValueEntropy a u p e) →
  Sorted Z.le (fidelity_dims e)
  ∧ NoDup (fidelity_dims e)
  ∧ (∀ k, k ∈ fidelity_dims e ↔ is_Some (tf !! k))
  ∧ length (fidelity_dims e) = size tf.
Proof.
  intros Hacq.
  destruct (decide (tf = ∅)) as [-> | Hne].
  - apply instantiate_MES_standard in Hacq as [? ?]. discriminate.
  - apply instantiate_MES_multi_fidelity in Hacq as (a' & ws & Heq & _ & _);
      [| done].
    injection Heq as _ _ _ ->. simpl.
    destruct (sorted_keys_spec tf) as (Hs & Hn & Hk).
    split_and!; try done.
    unfold sorted_keys.
    by rewrite merge_sort_Permutation, length_map, length_map_to_list.
Qed.

Lemma instantiate_MES_fidelity_dims_sorted_witness :
  ∃ a u p e,
    _instantiate_MES 0 [] (VInt 16) (VInt 10) (VInt 128) None true (VInt 0)
      (Some (<[5 := 1%float]> (<[2 := 1%float]> (<[7 := 3%float]> ∅)))) VNone
      1%float
    = Ok (qMultiFidelityMaxValueEntropy a u p e)
    ∧ fidelity_dims e = [2; 5; 7]
    ∧ Sorted Z.le (fidelity_dims e).
Proof.
  eexists _, _, _, _.
  assert (Hrun : _instantiate_MES 0 [] (VInt 16) (VInt 10) (VInt 128) None true
                   (VInt 0)
                   (Some (<[5 := 1%float]> (<[2 := 1%float]> (<[7 := 3%float]> ∅))))
                   VNone 1%float
                 = Ok (qMultiFidelityMaxValueEntropy _ _ _ _))
    by (vm_compute; reflexivity).
  split; [exact Hrun |]. split; [vm_compute; reflexivity |].
  exact (proj1 (instantiate_MES_fidelity_dims_sorted _ _ _ _ _ _ _ _ _ _ _ _ _ _ _
                  Hrun)).
Defined.

(** * Reaching the acquisition function *)

Lemma gen_build_to_instantiate `{collaborators} (self : MaxValueEntropySearch)
    (ssd : SearchSpaceDigest) (cfg : TorchOptConfig) (w : world) (w0 : float)
    (acf oo : gmap key value) :
  is_ok (_get_X_pending_and_observed (Xs self) (objective_weights cfg)
           (bounds ssd) (pending_observations cfg) (outcome_constraints cfg)
           (linear_constraints cfg) (fixed_features cfg)) = true →
  objective_weights cfg = [w0] → nonzero w0 = true →
  (truthy (dict_get (gen_options cfg) "subset_model" (VBool true)) = false
   ∨ is_Some (heap w !! model self)) →
  dict_get (gen_options cfg) "acquisition_function_kwargs" (VDict ∅) = VDict acf →
  dict_get (gen_options cfg) "optimizer_kwargs" (VDict ∅) = VDict oo →
  bounds ssd ≠ [] →
  (∀ seed, is_ok (torch_rand seed (dict_get acf "candidate_size" (VInt 1000))
                    (length (bounds ssd))) = true) →
  ∃ Xpo m w1 cs,
    gen_subset self cfg w = (Ok (m, [w0]), w1)
    ∧ gen_build self ssd cfg w
      = match _instantiate_MES m
                (rescale (map fst (bounds ssd), map snd (bounds ssd)) cs)
                (dict_get acf "num_fantasies" (VInt 16))
                (dict_get acf "num_mv_samples" (VInt 10))
                (dict_get acf "num_y_samples" (VInt 128))
                Xpo (if PrimFloat.eqb w0 1 then true else false)
                (dict_get (gen_options cfg) "num_trace_observations" (VInt 0))
                (Some (gen_target_fidelities ssd))
                (dict_get (gen_options cfg) "fidelity_weights" VNone)
                (cost_intercept self)
        with
        | Ok acq =>
            (Ok {| acq_function := acq;
                   bounds_ := (map fst (bounds ssd), map snd (bounds ssd));
                   optimizer_options := oo;
                   num_restarts := dict_get oo "num_restarts" (VInt 40);
                   raw_samples := dict_get oo "raw_samples" (VInt 1024) |},
             {| heap := heap w1; rng := S (rng w1);
                calls := CallSampler (dict_get acf "candidate_size" (VInt 1000))
                           (length (bounds ssd)) :: calls w1 |})
        | Err e =>
            (Err e,
             {| heap := heap w1; rng := S (rng w1);
                calls := CallSampler (dict_get acf "candidate_size" (VInt 1000))
                           (length (bounds ssd)) :: calls w1 |})
        end.
Proof.
  intros HX Hw0 Hnz Hsub Hacf Hoo Hb Hrand.
  unfold gen_build.
  destruct (_get_X_pending_and_observed _ _ _ _ _ _ _) as [Xpo|] eqn:HXpo;
    [| discriminate].
  destruct (gen_subset_single self cfg w w0 Hw0 Hnz Hsub) as (m & w1 & Hs).
  specialize (Hrand (rng w1)).
  destruct (torch_rand (rng w1) _ _) as [cs|] eqn:Hcs; [| discriminate].
  exists (fst Xpo), m, w1, cs. split; [exact Hs |].
  rewrite Hacf, Hoo.
  erewrite bind_run; [| reflexivity].
  erewrite bind_run; [| exact Hs].
  erewrite bind_run; [| reflexivity].
  erewrite bind_run; [| reflexivity].
  erewrite bind_run;
    [| unfold lift; rewrite (transpose_bounds_nonempty _ Hb); reflexivity].
  unfold sample_candidate_set.
  erewrite bind_run;
    [| erewrite bind_run; [| reflexivity];
       erewrite bind_run; [| reflexivity];
       unfold lift; simpl; rewrite length_map, Hcs; reflexivity].
  erewrite bind_run; [| reflexivity].
  unfold bind, lift, ret. cbn [fst snd].
  by destruct (_instantiate_MES _ _ _ _ _ _ _ _ _ _ _).
Qed.

(** X18: when some fidelity feature has a target value, a top-level
    fidelity-weight dictionary whose keys differ from the keys of the target
    fidelities is detected only when the acquisition function is built: when
    the earlier steps succeed, [gen] raises the index-mismatch
    [RuntimeError] after the candidate set has been drawn, and without
    calling the optimizer. *)
Theorem gen_fidelity_mismatch_after_sampling `{collaborators}
    (self : MaxValueEntropySearch) (n : Z) (ssd : SearchSpaceDigest)
    (cfg : TorchOptConfig) (w : world) (w0 : float)
    (acf oo d : gmap key value) :
  gen_validate cfg = Ok tt →
  is_ok (_get_X_pending_and_observed (Xs self) (objective_weights cfg)
           (bounds ssd) (pending_observations cfg) (outcome_constraints cfg)
           (linear_constraints cfg) (fixed_features cfg)) = true →
  objective_weights cfg = [w0] → nonzero w0 = true →
  (truthy (dict_get (gen_options cfg) "subset_model" (VBool true)) = false
   ∨ is_Some (heap w !! model self)) →
  dict_get (gen_options cfg) "acquisition_function_kwargs" (VDict ∅) = VDict acf →
  dict_get (gen_options cfg) "optimizer_kwargs" (VDict ∅) = VDict oo →
  bounds ssd ≠ [] →
  (∀ seed, is_ok (torch_rand seed (dict_get acf "candidate_size" (VInt 1000))
                    (length (bounds ssd))) = true) →
  gen_target_fidelities ssd ≠ ∅ →
  dict_get (gen_options cfg) "fidelity_weights" VNone = VDict d →
  dom d ≠ target_keys (gen_target_fidelities ssd) →
  ∃ w',
    gen self n ssd cfg w
    = (Err (RuntimeError
              (IndexMismatch (target_keys (gen_target_fidelities ssd)) (dom d))),
       w')
    ∧ existsb is_sampler_call (new_calls w w') = true
    ∧ existsb is_optimizer_call (new_calls w w') = false.
Proof.
  intros Hval HX Hw0 Hnz Hsub Hacf Hoo Hb Hrand Htf Hfw Hd.
  destruct (gen_build_to_instantiate self ssd cfg w w0 acf oo
              HX Hw0 Hnz Hsub Hacf Hoo Hb Hrand)
    as (Xpo & m & w1 & cs & Hs & Hbuild).
  rewrite Hfw in Hbuild. unfold _instantiate_MES in Hbuild.
  rewrite bool_decide_eq_false_2 in Hbuild by done. simpl in Hbuild.
  rewrite bool_decide_eq_false_2 in Hbuild by done. simpl in Hbuild.
  eexists. split.
  - unfold gen. erewrite bind_run; [| unfold lift; rewrite Hval; reflexivity].
    apply bind_err. exact Hbuild.
  - apply gen_subset_run in Hs
      as [(_ & _ & _ & ->) | (_ & d' & h' & _ & _ & _ & ->)].
    + match goal with |- context [new_calls ?a ?b] =>
        assert (Hn : new_calls a b = [CallSampler
                       (dict_get acf "candidate_size" (VInt 1000))
                       (length (bounds ssd))])
          by apply (take_new_calls [_] (calls w));
        rewrite Hn
      end.
      done.
    + match goal with |- context [new_calls ?a ?b] =>
        assert (Hn : new_calls a b = [CallSampler
                       (dict_get acf "candidate_size" (VInt 1000))
                       (length (bounds ssd)); CallSubsetModel (model self)])
          by apply (take_new_calls [_; _] (calls w));
        rewrite Hn
      end.
      done.
Qed.

Lemma gen_fidelity_mismatch_after_sampling_witness :
  ∃ w',
    gen (H := demo) demo_self 3 demo_ssd_mf
      (demo_cfg [1%float] (Some mismatched_opts)) demo_world
    = (Err (RuntimeError
              (IndexMismatch (target_keys (gen_target_fidelities demo_ssd_mf))
                 (dom ({[ KInt 3 := VFloat 0.5%float ]} : gmap key value)))),
       w')
    ∧ existsb is_sampler_call (new_calls demo_world w') = true
    ∧ existsb is_optimizer_call (new_calls demo_world w') = false.
Proof.
  refine (gen_fidelity_mismatch_after_sampling (H := demo) demo_self 3
            demo_ssd_mf (demo_cfg [1%float] (Some mismatched_opts)) demo_world
            1%float small_acf ∅ {[ KInt 3 := VFloat 0.5%float ]}
            eq_refl eq_refl eq_refl eq_refl _ eq_refl eq_refl _ _ _ eq_refl _).
  - right. exists {| model_base := 0; model_outcomes := [0%nat] |}.
    reflexivity.
  - discriminate.
  - intros seed. reflexivity.
  - vm_compute. discriminate.
  - vm_compute. discriminate.
Defined.

(** * The best-point acquisition function *)

(** X20: [_get_best_point_acqf] checks in this order: outcome constraints
    (raising [UnsupportedError] whatever else holds), then the generator's
    model (an error raised by reading [self.model] ends the call), then the
    observed points (raising the [ValueError] of [not_none] when they are
    missing); otherwise it returns what
    [get_out_of_sample_best_point_acqf] returns for the model, the
    generator's training inputs and fidelity features and the arguments of
    the call, with no outcome constraints.  The argument [mc_samples] has no
    effect, and for a configuration that passed the validation of [gen] the
    constraint guard does not fire. *)
Theorem best_point_acqf_guard_order `{best_point_collaborator}
    (self : BestPointSelf) (X_observed : option (list (list float)))
    (objective_weights : list float) (mc_samples : Z)
    (fixed_features target_fidelities : option (gmap Z float))
    (oc : option (list (list float) * list (list float)))
    (seed_inner : option Z) (qmc : bool) :
  (oc ≠ None →
   _get_best_point_acqf self X_observed objective_weights mc_samples
     fixed_features target_fidelities oc seed_inner qmc
   = Err (UnsupportedError (Text "Outcome constraints not yet supported.")))
  ∧ (∀ e, oc = None → bp_model self = Err e →
     _get_best_point_acqf self X_observed objective_weights mc_samples
       fixed_features target_fidelities oc seed_inner qmc
     = Err e)
  ∧ (∀ m, oc = None → bp_model self = Ok (Some m) → X_observed = None →
     _get_best_point_acqf self X_observed objective_weights mc_samples
       fixed_features target_fidelities oc seed_inner qmc
     = Err (ValueError (Text "Argument to `not_none` was None.")))
  ∧ (∀ m X, oc = None → bp_model self = Ok (Some m) →
            X_observed = Some X →
     _get_best_point_acqf self X_observed objective_weights mc_samples
       fixed_features target_fidelities oc seed_inner qmc
     = get_out_of_sample_best_point_acqf
         {| bpa_model := m; bpa_Xs := bp_Xs self;
            bpa_objective_weights := objective_weights;
            bpa_outcome_constraints := None;
            bpa_X_observed := X;
            bpa_seed_inner := seed_inner;
            bpa_fixed_features := fixed_features;
            bpa_fidelity_features := bp_fidelity_features self;
            bpa_target_fidelities := target_fidelities;
            bpa_qmc := qmc |})
  ∧ (∀ mc_samples',
       _get_best_point_acqf self X_observed objective_weights mc_samples'
         fixed_features target_fidelities oc seed_inner qmc
       = _get_best_point_acqf self X_observed objective_weights mc_samples
           fixed_features target_fidelities oc seed_inner qmc)
  ∧ (∀ cfg : TorchOptConfig,
       gen_validate cfg = Ok tt →
       _get_best_point_acqf self X_observed objective_weights mc_samples
         fixed_features target_fidelities (outcome_constraints cfg)
         seed_inner qmc
       = _get_best_point_acqf self X_observed objective_weights mc_samples
           fixed_features target_fidelities None seed_inner qmc).
Proof.
  unfold _get_best_point_acqf. split_and!.
  - intros Hoc. by destruct oc.
  - intros e -> ->. reflexivity.
  - intros m -> -> ->. reflexivity.
  - intros m X -> -> ->. reflexivity.
  - reflexivity.
  - intros cfg Hval. unfold gen_validate in Hval.
    destruct (linear_constraints cfg), (outcome_constraints cfg);
      simpl in Hval; try discriminate. reflexivity.
Qed.
